(** * fbar: maximum cleared balance of an account over a calendar year

    A shallow embedding of [main.py].  The script asks the YNAB API for
    budgets, accounts and transactions, walks every account's cleared
    transactions backwards in time from the current cleared balance, and
    reports the highest balance reached during [CONFIG['year']] together
    with the dates between which it held.

    Python integers are unbounded, so balances and amounts are [Z].
    Python exceptions are values of [exn]; code that may raise returns an
    [outcome]. *)

From Stdlib Require Import ZArith List Bool String Lia Sorted Permutation.
From Stdlib Require Import SpecFloat.
Import ListNotations.
Local Open Scope Z_scope.

(** ** Exceptions and the error monad *)

Inductive exn : Type :=
| TypeError
| IndexError
| KeyError
| ValueError
| ApiException
| OverflowError
| ZeroDivisionError.

Inductive outcome (A : Type) : Type :=
| Returned (a : A)
| Raised (e : exn).
Arguments Returned {A} a.
Arguments Raised {A} e.

Definition obind {A B} (c : outcome A) (k : A -> outcome B) : outcome B :=
  match c with
  | Returned a => k a
  | Raised e => Raised e
  end.

Declare Scope py_scope.
Delimit Scope py_scope with py.
Notation "x <- c ;; k" := (obind c (fun x => k))
  (at level 61, c at next level, right associativity) : py_scope.
Local Open Scope py_scope.

(** [try: c  except IndexError: h] *)
Definition except_IndexError {A} (c : outcome A) (h : outcome A) : outcome A :=
  match c with
  | Raised IndexError => h
  | other => other
  end.

(** ** [datetime.date] *)

Record pydate : Type := mkdate { year : Z; month : Z; day : Z }.

Definition MINYEAR : Z := 1.
Definition MAXYEAR : Z := 9999.

Definition is_leap (y : Z) : bool :=
  (y mod 4 =? 0) && (negb (y mod 100 =? 0) || (y mod 400 =? 0)).

Definition days_in_month (y m : Z) : Z :=
  if m =? 2 then (if is_leap y then 29 else 28)
  else if (m =? 4) || (m =? 6) || (m =? 9) || (m =? 11) then 30
  else 31.

Definition valid_ymd (y m d : Z) : bool :=
  (MINYEAR <=? y) && (y <=? MAXYEAR) &&
  (1 <=? m) && (m <=? 12) &&
  (1 <=? d) && (d <=? days_in_month y m).

(** The representation invariant of a [datetime.date] object. *)
Definition valid_date (d : pydate) : bool :=
  valid_ymd (year d) (month d) (day d).

(** The constructor [datetime.date(y, m, d)]; it raises [ValueError] on a
    triple that is not a calendar date. *)
Definition datetime_date (y m d : Z) : outcome pydate :=
  if valid_ymd y m d then Returned (mkdate y m d) else Raised ValueError.

(** Dates compare as the triples (year, month, day). *)
Definition date_lt (a b : pydate) : Prop :=
  year a < year b \/
  (year a = year b /\
   (month a < month b \/ (month a = month b /\ day a < day b))).

Definition date_le (a b : pydate) : Prop := date_lt a b \/ a = b.

Definition date_ltb (a b : pydate) : bool :=
  (year a <? year b) ||
  ((year a =? year b) &&
   ((month a <? month b) || ((month a =? month b) && (day a <? day b)))).

(** ** Transactions, accounts and the result record *)

(** [transaction.to_dict()]: the keys the script reads. *)
Record transaction : Type := mk_transaction {
  date : pydate;
  amount : Z;
  cleared : string
}.

(** The dict bound to [max_balance]. *)
Record MaxBalanceResult : Type := mk_max_balance {
  balance : Z;
  start : pydate;
  end_ : pydate
}.

(** [seq[i]] on a Python list: a negative index counts from the end, an
    index out of range raises [IndexError]. *)
Definition list_getitem {A} (l : list A) (i : Z) : outcome A :=
  let n := Z.of_nat (List.length l) in
  let j := if i <? 0 then i + n else i in
  if (j <? 0) || (n <=? j) then Raised IndexError
  else match nth_error l (Z.to_nat j) with
       | Some x => Returned x
       | None => Raised IndexError
       end.

(** [max_balance['balance']]: subscripting [None] raises [TypeError]. *)
Definition getitem_balance (m : option MaxBalanceResult) : outcome Z :=
  match m with
  | Some d => Returned (balance d)
  | None => Raised TypeError
  end.

Definition is_None {A} (o : option A) : bool :=
  match o with None => true | Some _ => false end.

(** ** The backward scan (main.py, lines 137-163) *)

(** The two local variables of the loop. *)
Record scan_state : Type := mk_scan {
  current_balance : Z;
  max_balance : option MaxBalanceResult
}.

(** [transaction['date'].year == CONFIG['year']] *)
Definition in_year (cfg_year : Z) (t : transaction) : bool :=
  year (date t) =? cfg_year.

Section Scan.

(** [CONFIG['year']] and [account['transactions']]. *)
Variable cfg_year : Z.
Variable txs : list transaction.

(** Lines 141-147: seed [max_balance] at the first transaction of the
    year.  [and] short-circuits, and the keyword arguments of [dict] are
    evaluated left to right. *)
Definition seed (t : transaction) (st : scan_state)
  : outcome (option MaxBalanceResult) :=
  if in_year cfg_year t && is_None (max_balance st) then
    e <- datetime_date cfg_year 12 31 ;;
    Returned (Some (mk_max_balance (current_balance st) (date t) e))
  else Returned (max_balance st).

(** Lines 153-156: the date of the next older transaction, or January 1. *)
Definition next_older_date (idx : nat) : outcome pydate :=
  except_IndexError
    (t' <- list_getitem txs (Z.of_nat idx + 1) ;; Returned (date t'))
    (datetime_date cfg_year 1 1).

(** One iteration of the [for idx, transaction in enumerate(...)] loop. *)
Definition loop_body (idx : nat) (t : transaction) (st : scan_state)
  : outcome scan_state :=
  mb <- seed t st ;;
  let cb := current_balance st - amount t in
  greater <- (if in_year cfg_year t
              then b <- getitem_balance mb ;; Returned (b <? cb)
              else Returned false) ;;
  if greater then
    s <- next_older_date idx ;;
    Returned (mk_scan cb (Some (mk_max_balance cb s (date t))))
  else Returned (mk_scan cb mb).

(** [enumerate] over the rest of the list, from position [idx]. *)
Fixpoint scan_from (idx : nat) (rest : list transaction) (st : scan_state)
  : outcome scan_state :=
  match rest with
  | [] => Returned st
  | t :: rest' =>
      st' <- loop_body idx t st ;;
      scan_from (S idx) rest' st'
  end.

End Scan.

(** Lines 137-163 for one account: the value bound to [max_balance] when
    the loop ends. *)
Definition computeMaxBalance (cleared_balance : Z) (txs : list transaction)
    (cfg_year : Z) : outcome (option MaxBalanceResult) :=
  st <- scan_from cfg_year txs 0 txs (mk_scan cleared_balance None) ;;
  Returned (max_balance st).

(** ** The script around the scan *)

(** A Python [float] is an IEEE 754 binary64 number.  The float
    arithmetic of the report is not computed here: its two expressions are
    taken from outside, each with the exceptions it can raise. *)
Inductive float_error : Type :=
| FloatOverflow
| FloatZeroDivision
| FloatKeyError
| FloatTypeError.

Inductive float_result : Type :=
| FloatOk (x : spec_float)
| FloatRaised (e : float_error).

Definition exn_of_float_error (e : float_error) : exn :=
  match e with
  | FloatOverflow => OverflowError
  | FloatZeroDivision => ZeroDivisionError
  | FloatKeyError => KeyError
  | FloatTypeError => TypeError
  end.

Definition float_outcome (r : float_result) : outcome spec_float :=
  match r with
  | FloatOk x => Returned x
  | FloatRaised e => Raised (exn_of_float_error e)
  end.

(** The literal [0.00]. *)
Definition float_zero : spec_float := S754_zero false.

(** What the script writes to standard output.  A table row holds the
    account name, the two floats that are formatted into the currency
    columns, and the two dates. *)
Record row : Type := mk_row {
  row_name : string;
  row_eur : spec_float;
  row_usd : spec_float;
  row_start : pydate;
  row_end : pydate
}.

Inductive output : Type :=
| Print (s : string)
| PrintTable (rows : list row).

(** A computation that prints and may raise: the lines written so far, and
    how it ended. *)
Definition io (A : Type) : Type := (list output * outcome A)%type.

Definition io_ret {A} (a : A) : io A := ([], Returned a).

Definition io_raise {A} (e : exn) : io A := ([], Raised e).

Definition io_bind {A B} (c : io A) (k : A -> io B) : io B :=
  match c with
  | (out1, Returned a) => let (out2, r) := k a in (out1 ++ out2, r)
  | (out1, Raised e) => (out1, Raised e)
  end.

Notation "x <~ c ;; k" := (io_bind c (fun x => k))
  (at level 61, c at next level, right associativity) : py_scope.

Definition print (s : string) : io unit := ([Print s], Returned tt).

Definition lift {A} (c : outcome A) : io A := ([], c).

(** [for x in v]: iterating [None] raises [TypeError]. *)
Definition iter {A} (v : option (list A)) : io (list A) :=
  match v with
  | Some l => io_ret l
  | None => io_raise TypeError
  end.

(** A [for] loop whose body updates the variable [s]. *)
Fixpoint for_each {A S} (body : A -> S -> io S) (l : list A) (s : S) : io S :=
  match l with
  | [] => io_ret s
  | x :: l' => s' <~ body x s ;; for_each body l' s'
  end.

(** A [for] loop whose body updates the element it visits. *)
Fixpoint for_each_update {A} (body : A -> io A) (l : list A) : io (list A) :=
  match l with
  | [] => io_ret []
  | x :: l' => x' <~ body x ;; l'' <~ for_each_update body l' ;; io_ret (x' :: l'')
  end.

(** [d[key]] for a key that may be missing. *)
Definition dict_get {A} (slot : option A) : outcome A :=
  match slot with
  | Some v => Returned v
  | None => Raised KeyError
  end.

(** The objects the YNAB client returns. *)
Record ynab_budget : Type := mk_budget { budget_id_of : string }.

Record ynab_account : Type := mk_ynab_account {
  ya_id : string;
  ya_name : string;
  ya_cleared_balance : Z
}.

(** The account dicts of [main]; the keys ['transactions'] and
    ['max_balance'] are added by the second and the third loop. *)
Record account : Type := mk_account {
  acct_id : string;
  acct_name : string;
  acct_cleared_balance : Z;
  acct_budget_id : string;
  acct_transactions : option (list transaction);
  acct_max_balance : option (option MaxBalanceResult)
}.

(** [dict(_account.to_dict(), budget_id=_budget.id)] *)
Definition to_account (a : ynab_account) (budget_id : string) : account :=
  mk_account (ya_id a) (ya_name a) (ya_cleared_balance a) budget_id None None.

Definition set_transactions (a : account) (l : list transaction) : account :=
  mk_account (acct_id a) (acct_name a) (acct_cleared_balance a)
    (acct_budget_id a) (Some l) (acct_max_balance a).

Definition set_max_balance (a : account) (m : option MaxBalanceResult)
    : account :=
  mk_account (acct_id a) (acct_name a) (acct_cleared_balance a)
    (acct_budget_id a) (acct_transactions a) (Some m).

(** [transaction.cleared in ('cleared', 'reconciled')] *)
Definition is_cleared (t : transaction) : bool :=
  String.eqb (cleared t) "cleared" || String.eqb (cleared t) "reconciled".

(** [sorted(..., key=operator.itemgetter('date'), reverse=True)]: a stable
    sort, latest date first; transactions of one date keep their order. *)
Fixpoint insert_desc (t : transaction) (l : list transaction)
    : list transaction :=
  match l with
  | [] => [t]
  | u :: l' =>
      if date_ltb (date t) (date u) then u :: insert_desc t l'
      else t :: u :: l'
  end.

Definition sorted_by_date_reverse (l : list transaction) : list transaction :=
  fold_right insert_desc [] l.

Definition newline : string := String (Ascii.ascii_of_nat 10) EmptyString.

(** The text [handle_exception] prints: the f-string has no placeholder,
    so the exception itself is not shown. *)
Definition api_exception_message : string :=
  ("Exception when calling YNAB API: %f" ++ newline)%string.

(** The decorator [handle_exception]: an [ApiException] is printed and the
    wrapper falls off its end, returning [None]. *)
Definition handle_exception {A} (call : outcome A) : io (option A) :=
  match call with
  | Returned a => io_ret (Some a)
  | Raised ApiException => _ <~ print api_exception_message ;; io_ret None
  | Raised e => io_raise e
  end.

(** Lines 137-164 for one account dict. *)
Definition account_max_balance (cfg_year : Z) (a : account) : outcome account :=
  txs <- dict_get (acct_transactions a) ;;
  mb <- computeMaxBalance (acct_cleared_balance a) txs cfg_year ;;
  Returned (set_max_balance a mb).

(** Lines 169-191: the table row of one account.  [eur_of_milliunits b]
    stands for [round(b / 1000, 2)], which raises [OverflowError] when the
    quotient is beyond the floats; [usd_of_eur x] stands for
    [round(x / CONFIG['currency']['usd_to_eur'], 2)], which raises
    [KeyError] or [TypeError] on a configuration without a numeric rate
    and [ZeroDivisionError] on a rate of zero. *)
Definition report_row (cfg_year : Z)
    (eur_of_milliunits : Z -> float_result)
    (usd_of_eur : spec_float -> float_result)
    (a : account) : outcome row :=
  slot <- dict_get (acct_max_balance a) ;;
  match slot with
  | Some r =>
      eur_max_balance <- float_outcome (eur_of_milliunits (balance r)) ;;
      usd_max_balance <- float_outcome (usd_of_eur eur_max_balance) ;;
      Returned (mk_row (acct_name a) eur_max_balance usd_max_balance
                  (start r) (end_ r))
  | None =>
      s <- datetime_date cfg_year 1 1 ;;
      e <- datetime_date cfg_year 12 31 ;;
      Returned (mk_row (acct_name a) float_zero float_zero s e)
  end.

Section Main.

(** [CONFIG['year']] and the answers of the YNAB API: each call either
    returns its data or raises (an [ApiException] when the request
    fails); then the two float expressions of the report. *)
Variable cfg_year : Z.
Variable api_get_budgets : outcome (list ynab_budget).
Variable api_get_accounts : string -> outcome (list ynab_account).
Variable api_get_transactions : string -> string -> outcome (list transaction).
Variable eur_of_milliunits : Z -> float_result.
Variable usd_of_eur : spec_float -> float_result.

Definition get_budgets : io (option (list ynab_budget)) :=
  handle_exception api_get_budgets.

Definition get_accounts (budget_id : string)
  : io (option (list ynab_account)) :=
  handle_exception (api_get_accounts budget_id).

Definition get_transactions (budget_id account_id : string)
  : io (option (list transaction)) :=
  handle_exception (api_get_transactions budget_id account_id).

(** Lines 118-125. *)
Definition build_accounts : io (list account) :=
  _budgets <~ get_budgets ;;
  budgets <~ iter _budgets ;;
  for_each
    (fun _budget accounts =>
       _accounts <~ get_accounts (budget_id_of _budget) ;;
       ynab_accounts <~ iter _accounts ;;
       for_each
         (fun _account accounts =>
            io_ret (accounts ++ [to_account _account (budget_id_of _budget)]))
         ynab_accounts accounts)
    budgets [].

(** Lines 128-133. *)
Definition add_transactions (accounts : list account) : io (list account) :=
  for_each_update
    (fun account =>
       fetched <~ get_transactions (acct_budget_id account) (acct_id account) ;;
       transactions <~ iter fetched ;;
       io_ret (set_transactions account
                 (sorted_by_date_reverse (filter is_cleared transactions))))
    accounts.

(** Lines 136-164. *)
Definition max_balances (accounts : list account) : io (list account) :=
  for_each_update (fun account => lift (account_max_balance cfg_year account))
    accounts.

(** Lines 166-193. *)
Definition print_report (accounts : list account) : io unit :=
  rows <~ for_each
            (fun account rows =>
               r <~ lift (report_row cfg_year eur_of_milliunits usd_of_eur
                            account) ;;
               io_ret (rows ++ [r]))
            accounts [] ;;
  ([PrintTable rows], Returned tt).

Definition main : io unit :=
  accounts <~ build_accounts ;;
  accounts <~ add_transactions accounts ;;
  accounts <~ max_balances accounts ;;
  print_report accounts.

End Main.

(** ** Notions the properties are stated with *)

Definition jan1 (y : Z) : pydate := mkdate y 1 1.
Definition dec31 (y : Z) : pydate := mkdate y 12 31.

Definition sum_amounts (l : list transaction) : Z :=
  fold_right (fun t s => amount t + s) 0 l.

(** The value of [current_balance] once the [k] latest transactions have
    been undone. *)
Definition running_balance (cleared_balance : Z) (txs : list transaction)
    (k : nat) : Z :=
  cleared_balance - sum_amounts (firstn k txs).

(** The balance at the end of day [d]: every transaction dated after [d]
    undone. *)
Definition balance_on (cleared_balance : Z) (txs : list transaction)
    (d : pydate) : Z :=
  cleared_balance - sum_amounts (filter (fun t => date_ltb d (date t)) txs).

(** Latest first, no two transactions on one date. *)
Definition strictly_descending (txs : list transaction) : Prop :=
  Sorted (fun a b => date_lt (date b) (date a)) txs.

(** Latest first, as [sorted(..., reverse=True)] leaves the list. *)
Definition descending (txs : list transaction) : Prop :=
  Sorted (fun a b => date_le (date b) (date a)) txs.

(** The state of the scan when it reaches position [k]. *)
Definition scan_prefix (cfg_year : Z) (cleared_balance : Z)
    (txs : list transaction) (k : nat) : outcome scan_state :=
  scan_from cfg_year txs 0 (firstn k txs) (mk_scan cleared_balance None).

(** Position [i] holds the latest transaction of the year. *)
Definition first_in_year (y : Z) (txs : list transaction) (i : nat)
    (t : transaction) : Prop :=
  nth_error txs i = Some t /\ in_year y t = true /\
  forall j u, (j < i)%nat -> nth_error txs j = Some u -> in_year y u = false.

(** Where the stored record comes from once [k] transactions are scanned:
    the seed made at the latest transaction of the year, or an update made
    at a transaction of the year. *)
Inductive origin (y cb : Z) (txs : list transaction) (k : nat)
    : MaxBalanceResult -> Prop :=
| origin_seed (i : nat) (t : transaction) :
    (i < k)%nat -> first_in_year y txs i t ->
    origin y cb txs k
      (mk_max_balance (running_balance cb txs i) (date t) (dec31 y))
| origin_update (i : nat) (t : transaction) :
    (i < k)%nat -> nth_error txs i = Some t -> in_year y t = true ->
    origin y cb txs k
      (mk_max_balance (running_balance cb txs (S i))
         (match nth_error txs (S i) with
          | Some u => date u
          | None => jan1 y
          end)
         (date t)).

(** What holds of the two loop variables once [k] transactions are
    scanned. *)
Definition scan_inv (y cb : Z) (txs : list transaction) (k : nat)
    (st : scan_state) : Prop :=
  current_balance st = running_balance cb txs k /\
  match max_balance st with
  | None =>
      forall i t, (i < k)%nat -> nth_error txs i = Some t -> in_year y t = false
  | Some b =>
      origin y cb txs k b /\
      (exists i t, (i < k)%nat /\ first_in_year y txs i t /\
                   running_balance cb txs i <= balance b) /\
      (forall i t, (i < k)%nat -> nth_error txs i = Some t ->
                   in_year y t = true ->
                   running_balance cb txs (S i) <= balance b)
  end.

Definition tx (y m d : Z) (a : Z) : transaction :=
  mk_transaction (mkdate y m d) a "cleared".

(** The balance keeps the value [v] from the end of day [s] up to, but not
    including, the end of day [e]. *)
Definition held_over (cb : Z) (txs : list transaction) (s e : pydate) (v : Z)
    : Prop :=
  forall d, date_le s d -> date_lt d e -> balance_on cb txs d = v.

(** The specification's wording of the range, read literally: no
    transaction dated within [start, end], both ends included, changes the
    balance. *)
Definition unaltered_within (txs : list transaction) (r : MaxBalanceResult)
    : Prop :=
  forall t, In t txs ->
    date_le (start r) (date t) -> date_le (date t) (end_ r) -> amount t = 0.

(** The specification's wording of the range, read literally: no span of
    the target year that contains [start, end] and over which the balance
    keeps the record's value is longer than [start, end]. *)
Definition longest_span (y cb : Z) (txs : list transaction)
    (r : MaxBalanceResult) : Prop :=
  forall s e,
    date_le (jan1 y) s -> date_le e (dec31 y) ->
    date_le s (start r) -> date_le (end_ r) e ->
    held_over cb txs s e (balance r) ->
    s = start r /\ e = end_ r.

(** An account whose balance stays at its maximum across a transaction of
    amount zero. *)
Definition plateau_txs : list transaction :=
  [tx 2024 3 1 (-300); tx 2024 2 1 0; tx 2024 1 15 100].

Definition plateau_result : MaxBalanceResult :=
  mk_max_balance 800 (mkdate 2024 2 1) (mkdate 2024 3 1).

(** ** Two runs of the script against an API that fails once *)

(** Two budgets; the request for the accounts of the first one fails. *)
Definition two_budgets : outcome (list ynab_budget) :=
  Returned [mk_budget "b1"; mk_budget "b2"].

Definition accounts_failing_for_b1 (budget_id : string)
    : outcome (list ynab_account) :=
  if String.eqb budget_id "b1" then Raised ApiException
  else Returned [mk_ynab_account "a2" "Savings" 500].

Definition transactions_ok (budget_id account_id : string)
    : outcome (list transaction) :=
  Returned [tx 2024 3 1 (-300)].

(** One budget with two accounts; the request for the transactions of the
    first account fails. *)
Definition one_budget : outcome (list ynab_budget) :=
  Returned [mk_budget "b2"].

Definition two_accounts (budget_id : string) : outcome (list ynab_account) :=
  Returned [mk_ynab_account "a1" "Checking" 1000;
            mk_ynab_account "a2" "Savings" 500].

Definition transactions_failing_for_a1 (budget_id account_id : string)
    : outcome (list transaction) :=
  if String.eqb account_id "a1" then Raised ApiException
  else Returned [tx 2024 3 1 (-300)].

Definition savings_only (budget_id : string) : outcome (list ynab_account) :=
  Returned [mk_ynab_account "a2" "Savings" 500].

(** A record, and a state of the scan, with every balance raised by [c]. *)
Definition shift_result (c : Z) (r : MaxBalanceResult) : MaxBalanceResult :=
  mk_max_balance (balance r + c) (start r) (end_ r).

Definition shift_state (c : Z) (st : scan_state) : scan_state :=
  mk_scan (current_balance st + c) (option_map (shift_result c) (max_balance st)).

Definition outcome_map {A B} (f : A -> B) (c : outcome A) : outcome B :=
  match c with
  | Returned a => Returned (f a)
  | Raised e => Raised e
  end.

(** The script as it ends after a failed request: the message of
    [handle_exception] on standard output, then [TypeError]. *)
Definition aborted {A} : io A :=
  ([Print api_exception_message], Raised TypeError).

(** A part of the script that has printed nothing and has not raised
    [ApiException], or has ended as [aborted]. *)
Definition quiet_or_aborted {A} (c : io A) : Prop :=
  (fst c = [] /\ snd c <> Raised ApiException) \/ c = aborted.

(** The account dicts of the first loop, when the budgets are [bs] and the
    accounts of a budget are given by [accs]. *)
Definition fetched_accounts (bs : list ynab_budget)
    (accs : string -> list ynab_account) : list account :=
  flat_map
    (fun b => map (fun a => to_account a (budget_id_of b))
                  (accs (budget_id_of b)))
    bs.

(** The table row of an account whose fetched transactions are [fetched]:
    the record of the scan with its balance in the two currencies [eur]
    and [usd] compute, or the placeholder when there is none. *)
Definition expected_row (y : Z) (eur : Z -> spec_float)
    (usd : spec_float -> spec_float) (a : account)
    (fetched : list transaction) : row :=
  match computeMaxBalance (acct_cleared_balance a)
          (sorted_by_date_reverse (filter is_cleared fetched)) y with
  | Returned (Some r) =>
      mk_row (acct_name a) (eur (balance r)) (usd (eur (balance r)))
        (start r) (end_ r)
  | _ => mk_row (acct_name a) float_zero float_zero (jan1 y) (dec31 y)
  end.

(** [a == b] on dates. *)
Definition date_eqb (a b : pydate) : bool :=
  (year a =? year b) && (month a =? month b) && (day a =? day b).

(** The transactions of a list that are dated [d], in their order. *)
Definition dated (d : pydate) (l : list transaction) : list transaction :=
  filter (fun t => date_eqb d (date t)) l.

(** ** Lines 137-164 on the heap

    The account dict, its transaction list and the transaction dicts are
    objects with an identity; the loop reads them through references and
    creates a new dict for every record it stores.  An address is a
    position in the heap. *)

Definition addr : Type := nat.

(** The account dict as it lies on the heap: ['transactions'] refers to a
    list object, ['max_balance'] is [None] or refers to a dict. *)
Record heap_account : Type := mk_heap_account {
  ha_id : string;
  ha_name : string;
  ha_cleared_balance : Z;
  ha_budget_id : string;
  ha_transactions : option addr;
  ha_max_balance : option (option addr)
}.

Inductive pyobj : Type :=
| OAccount (a : heap_account)
| OTransaction (t : transaction)
| OList (items : list addr)
| OMaxBalance (r : MaxBalanceResult).

Definition heap : Type := list pyobj.

(** The keys the loop reads, each as a partial function of the dict. *)
Definition key_cleared_balance (o : pyobj) : option Z :=
  match o with OAccount a => Some (ha_cleared_balance a) | _ => None end.

Definition key_transactions (o : pyobj) : option addr :=
  match o with OAccount a => ha_transactions a | _ => None end.

Definition key_date (o : pyobj) : option pydate :=
  match o with OTransaction t => Some (date t) | _ => None end.

Definition key_amount (o : pyobj) : option Z :=
  match o with OTransaction t => Some (amount t) | _ => None end.

Definition key_balance (o : pyobj) : option Z :=
  match o with OMaxBalance r => Some (balance r) | _ => None end.

(** [obj[key]] for a string key: [KeyError] on a dict without the key,
    [TypeError] on a list.  Every reference of a Python program refers to
    an object; an address outside the heap is given [TypeError]. *)
Definition read_key {A} (h : heap) (a : addr) (key : pyobj -> option A)
    : outcome A :=
  match nth_error h a with
  | Some (OList _) => Raised TypeError
  | Some o =>
      match key o with
      | Some v => Returned v
      | None => Raised KeyError
      end
  | None => Raised TypeError
  end.

(** The items of the object a [for] loop or an integer subscript goes
    through.  Iterating a dict yields its keys, which are strings, and
    [transaction['date']] on a string is a [TypeError]. *)
Definition read_list (h : heap) (a : addr) : outcome (list addr) :=
  match nth_error h a with
  | Some (OList items) => Returned items
  | _ => Raised TypeError
  end.

(** [dict(...)]: a new object at the end of the heap. *)
Definition alloc (h : heap) (o : pyobj) : heap * addr :=
  (h ++ [o], List.length h).

Fixpoint heap_update (a : addr) (o : pyobj) (h : heap) : heap :=
  match h, a with
  | [], _ => []
  | _ :: h', O => o :: h'
  | x :: h', S a' => x :: heap_update a' o h'
  end.

(** [account['max_balance'] = max_balance].  Line 137 has read
    ['cleared_balance'] from the same object before. *)
Definition store_max_balance (h : heap) (acct : addr) (m : option addr)
    : outcome heap :=
  match nth_error h acct with
  | Some (OAccount a) =>
      Returned (heap_update acct
                  (OAccount (mk_heap_account (ha_id a) (ha_name a)
                               (ha_cleared_balance a) (ha_budget_id a)
                               (ha_transactions a) (Some m)))
                  h)
  | _ => Raised TypeError
  end.

(** The heap and the two local variables of the loop; [max_balance] is
    [None] or a reference. *)
Record heap_state : Type := mk_heap_state {
  hs_heap : heap;
  hs_current : Z;
  hs_max : option addr
}.

Section HeapScan.

Variable cfg_year : Z.
(** The reference bound to [account]. *)
Variable acct : addr.

(** Lines 141-147. *)
Definition heap_seed (tr : addr) (st : heap_state)
  : outcome (heap * option addr) :=
  d <- read_key (hs_heap st) tr key_date ;;
  if (year d =? cfg_year) && is_None (hs_max st) then
    s <- read_key (hs_heap st) tr key_date ;;
    e <- datetime_date cfg_year 12 31 ;;
    let (h', m) := alloc (hs_heap st)
                     (OMaxBalance (mk_max_balance (hs_current st) s e)) in
    Returned (h', Some m)
  else Returned (hs_heap st, hs_max st).

(** Lines 153-156. *)
Definition heap_next_older_date (h : heap) (idx : nat) : outcome pydate :=
  except_IndexError
    (l <- read_key h acct key_transactions ;;
     items <- read_list h l ;;
     tr' <- list_getitem items (Z.of_nat idx + 1) ;;
     read_key h tr' key_date)
    (datetime_date cfg_year 1 1).

(** [max_balance['balance']] *)
Definition heap_getitem_balance (h : heap) (m : option addr) : outcome Z :=
  match m with
  | Some a => read_key h a key_balance
  | None => Raised TypeError
  end.

(** One iteration, [tr] being the reference bound to [transaction]. *)
Definition heap_body (idx : nat) (tr : addr) (st : heap_state)
  : outcome heap_state :=
  seeded <- heap_seed tr st ;;
  let (h1, m1) := seeded in
  amt <- read_key h1 tr key_amount ;;
  let cb := hs_current st - amt in
  d <- read_key h1 tr key_date ;;
  greater <- (if year d =? cfg_year
              then b <- heap_getitem_balance h1 m1 ;; Returned (b <? cb)
              else Returned false) ;;
  if greater then
    s <- heap_next_older_date h1 idx ;;
    e <- read_key h1 tr key_date ;;
    let (h2, m2) := alloc h1 (OMaxBalance (mk_max_balance cb s e)) in
    Returned (mk_heap_state h2 cb (Some m2))
  else Returned (mk_heap_state h1 cb m1).

(** The [for] loop over the list object at [l]: the iterator reads the
    list at every step and stops when position [idx] is past its end.
    [None] means that [fuel] steps were not enough. *)
Fixpoint heap_loop (l : addr) (fuel idx : nat) (st : heap_state)
  : option (outcome heap_state) :=
  match fuel with
  | O => None
  | S fuel' =>
      match read_list (hs_heap st) l with
      | Raised e => Some (Raised e)
      | Returned items =>
          match nth_error items idx with
          | None => Some (Returned st)
          | Some tr =>
              match heap_body idx tr st with
              | Raised e => Some (Raised e)
              | Returned st' => heap_loop l fuel' (S idx) st'
              end
          end
      end
  end.

(** Lines 137-164 for the account at [acct]: the heap they leave. *)
Definition heap_account_max_balance (h : heap) (fuel : nat)
  : option (outcome heap) :=
  match read_key h acct key_cleared_balance with
  | Raised e => Some (Raised e)
  | Returned cb =>
      match read_key h acct key_transactions with
      | Raised e => Some (Raised e)
      | Returned l =>
          match heap_loop l fuel 0 (mk_heap_state h cb None) with
          | None => None
          | Some (Raised e) => Some (Raised e)
          | Some (Returned st) =>
              Some (store_max_balance (hs_heap st) acct (hs_max st))
          end
      end
  end.

End HeapScan.

(** The heap [h] holds, at [acct], an account dict with cleared balance
    [cb] whose transaction list holds references to the transactions
    [txs], in this order. *)
Definition represents (h : heap) (acct : addr) (cb : Z)
    (txs : list transaction) : Prop :=
  exists a l refs,
    nth_error h acct = Some (OAccount a) /\
    ha_cleared_balance a = cb /\
    ha_transactions a = Some l /\
    nth_error h l = Some (OList refs) /\
    map (nth_error h) refs = map (fun t => Some (OTransaction t)) txs.

(** [account['max_balance']] read back from the heap: the key may be
    missing; its value is [None] or the record of the dict it refers to. *)
Definition stored_max_balance (h : heap) (acct : addr)
    : option (option MaxBalanceResult) :=
  match nth_error h acct with
  | Some (OAccount a) =>
      match ha_max_balance a with
      | Some (Some m) =>
          match nth_error h m with
          | Some (OMaxBalance r) => Some (Some r)
          | _ => None
          end
      | Some None => Some None
      | None => None
      end
  | _ => None
  end.

(** What relates the heap loop to the scan: the heap has only grown, and
    the two local variables hold the same balance and the same record. *)
Definition heap_sim (h : heap) (st : heap_state) (ps : scan_state) : Prop :=
  (exists extra, hs_heap st = h ++ extra) /\
  hs_current st = current_balance ps /\
  match hs_max st, max_balance ps with
  | None, None => True
  | Some m, Some r =>
      nth_error (hs_heap st) m = Some (OMaxBalance r) /\
      (List.length h <= m)%nat
  | _, _ => False
  end.

(** Two heaps that hold the same account data at different addresses,
    the second among other objects. *)
Definition heap_one : heap :=
  [OAccount (mk_heap_account "a1" "Checking" 500 "b1" (Some 1%nat) None);
   OList [2%nat];
   OTransaction (tx 2024 3 1 (-300))].

Definition heap_two : heap :=
  [OTransaction (tx 2024 3 1 (-300));
   OMaxBalance (mk_max_balance 7 (mkdate 2023 1 1) (mkdate 2023 12 31));
   OList [0%nat];
   OAccount (mk_heap_account "a2" "Savings" 500 "b2" (Some 2%nat)
               (Some (Some 1%nat)))].

(** * Properties *)

(** ** Dates *)

Lemma date_ltb_lt (a b : pydate) : date_ltb a b = true <-> date_lt a b.
Proof.
  unfold date_ltb, date_lt.
  rewrite orb_true_iff, andb_true_iff, orb_true_iff, andb_true_iff.
  rewrite !Z.ltb_lt, !Z.eqb_eq. tauto.
Qed.

Lemma date_ltb_ge (a b : pydate) : date_ltb a b = false <-> date_le b a.
Proof.
  rewrite <- not_true_iff_false, date_ltb_lt.
  unfold date_le, date_lt. destruct a as [ya ma da], b as [yb mb db]; simpl.
  split.
  - intros H.
    destruct (Z.eq_dec ya yb), (Z.eq_dec ma mb), (Z.eq_dec da db);
      subst; auto; left; lia.
  - intros [H | H]; [lia | inversion H; lia].
Qed.

Lemma date_lt_trans (a b c : pydate) : date_lt a b -> date_lt b c -> date_lt a c.
Proof. unfold date_lt. lia. Qed.

Lemma date_lt_irrefl (a : pydate) : ~ date_lt a a.
Proof. unfold date_lt. lia. Qed.

Lemma date_le_trans (a b c : pydate) : date_le a b -> date_le b c -> date_le a c.
Proof.
  unfold date_le. intros [H1 | ->] [H2 | ->]; auto.
  left. eapply date_lt_trans; eauto.
Qed.

Lemma date_lt_le_trans (a b c : pydate) :
  date_lt a b -> date_le b c -> date_lt a c.
Proof. intros H [H2 | ->]; auto. eapply date_lt_trans; eauto. Qed.

Lemma date_le_lt_trans (a b c : pydate) :
  date_le a b -> date_lt b c -> date_lt a c.
Proof. intros [H | ->] H2; auto. eapply date_lt_trans; eauto. Qed.

Lemma date_le_year (a b : pydate) : date_le a b -> year a <= year b.
Proof. unfold date_le, date_lt. intros [H | ->]; lia. Qed.

Lemma date_lt_not_le (a b : pydate) : date_lt a b -> ~ date_le b a.
Proof.
  unfold date_le. intros H [H' | ->].
  - apply (date_lt_irrefl a). eapply date_lt_trans; eauto.
  - now apply date_lt_irrefl in H.
Qed.

Lemma valid_date_bounds (d : pydate) :
  valid_date d = true ->
  MINYEAR <= year d <= MAXYEAR /\ 1 <= month d <= 12 /\ 1 <= day d <= 31.
Proof.
  unfold valid_date, valid_ymd, days_in_month.
  rewrite !andb_true_iff, !Z.leb_le.
  intros [[[[[H1 H2] H3] H4] H5] H6].
  repeat split; try assumption.
  destruct (month d =? 2); [destruct (is_leap (year d)) |
    destruct ((month d =? 4) || (month d =? 6) || (month d =? 9) || (month d =? 11))];
    lia.
Qed.

(** A date of year [y] lies between January 1 and December 31 of [y]. *)
Lemma in_year_between (y : Z) (d : pydate) :
  valid_date d = true -> year d = y ->
  date_le (jan1 y) d /\ date_le d (dec31 y).
Proof.
  intros Hv <-. apply valid_date_bounds in Hv.
  destruct d as [yd md dd]; simpl in *.
  unfold date_le, date_lt, jan1, dec31; simpl. split.
  - destruct (Z.eq_dec md 1), (Z.eq_dec dd 1); subst; auto; left; lia.
  - destruct (Z.eq_dec md 12), (Z.eq_dec dd 31); subst; auto; left; lia.
Qed.

Lemma datetime_date_year_end (d : pydate) :
  valid_date d = true -> datetime_date (year d) 12 31 = Returned (dec31 (year d)).
Proof.
  intros Hv. apply valid_date_bounds in Hv.
  unfold datetime_date, valid_ymd, days_in_month; simpl.
  replace (MINYEAR <=? year d) with true by (symmetry; apply Z.leb_le; lia).
  replace (year d <=? MAXYEAR) with true by (symmetry; apply Z.leb_le; lia).
  reflexivity.
Qed.

Lemma datetime_date_year_start (d : pydate) :
  valid_date d = true -> datetime_date (year d) 1 1 = Returned (jan1 (year d)).
Proof.
  intros Hv. apply valid_date_bounds in Hv.
  unfold datetime_date, valid_ymd, days_in_month; simpl.
  replace (MINYEAR <=? year d) with true by (symmetry; apply Z.leb_le; lia).
  replace (year d <=? MAXYEAR) with true by (symmetry; apply Z.leb_le; lia).
  reflexivity.
Qed.

Lemma datetime_date_returns (y m d : Z) (r : pydate) :
  datetime_date y m d = Returned r -> r = mkdate y m d.
Proof.
  unfold datetime_date. destruct (valid_ymd y m d); congruence.
Qed.

Lemma datetime_date_raises (y m d : Z) (e : exn) :
  datetime_date y m d = Raised e -> e = ValueError.
Proof.
  unfold datetime_date. destruct (valid_ymd y m d); congruence.
Qed.

(** ** One iteration of the scan *)

(** [transactions[idx + 1]] never takes the negative-index path. *)
Lemma list_getitem_next {A} (l : list A) (i : nat) :
  list_getitem l (Z.of_nat i + 1) =
  match nth_error l (S i) with
  | Some x => Returned x
  | None => Raised IndexError
  end.
Proof.
  unfold list_getitem.
  replace (Z.of_nat i + 1 <? 0) with false by (symmetry; apply Z.ltb_ge; lia).
  replace (Z.to_nat (Z.of_nat i + 1)) with (S i) by lia.
  destruct (nth_error l (S i)) eqn:E.
  - assert (S i < List.length l)%nat by (apply nth_error_Some; congruence).
    replace (Z.of_nat i + 1 <? 0) with false by (symmetry; apply Z.ltb_ge; lia).
    replace (Z.of_nat (List.length l) <=? Z.of_nat i + 1) with false
      by (symmetry; apply Z.leb_gt; lia).
    reflexivity.
  - destruct ((Z.of_nat i + 1 <? 0) || (Z.of_nat (List.length l) <=? Z.of_nat i + 1));
      reflexivity.
Qed.

Lemma next_older_date_eq (y : Z) (txs : list transaction) (idx : nat) :
  next_older_date y txs idx =
  match nth_error txs (S idx) with
  | Some t' => Returned (date t')
  | None => datetime_date y 1 1
  end.
Proof.
  unfold next_older_date. rewrite list_getitem_next.
  destruct (nth_error txs (S idx)); reflexivity.
Qed.

Lemma in_year_true (y : Z) (t : transaction) :
  in_year y t = true <-> year (date t) = y.
Proof. unfold in_year. apply Z.eqb_eq. Qed.

Lemma loop_body_other_year (y : Z) (txs : list transaction) (idx : nat)
    (t : transaction) (st : scan_state) :
  in_year y t = false ->
  loop_body y txs idx t st =
  Returned (mk_scan (current_balance st - amount t) (max_balance st)).
Proof. intros H. unfold loop_body, seed. rewrite H. reflexivity. Qed.

(** In the year, the record that reaches the comparison is the stored one,
    or the seed made in this iteration. *)
Lemma seed_in_year (y : Z) (t : transaction) (st : scan_state)
    (mb : option MaxBalanceResult) :
  in_year y t = true -> seed y t st = Returned mb ->
  exists b, mb = Some b /\
    (max_balance st = Some b \/
     (max_balance st = None /\
      b = mk_max_balance (current_balance st) (date t) (dec31 y))).
Proof.
  intros Hy. unfold seed. rewrite Hy.
  destruct (max_balance st) as [b |] eqn:E; simpl.
  - intros [= <-]. exists b. auto.
  - destruct (datetime_date y 12 31) as [e | e] eqn:D; simpl; [| discriminate].
    intros [= <-]. apply datetime_date_returns in D. subst e.
    eexists. split; [reflexivity |]. right. auto.
Qed.

Lemma seed_raises (y : Z) (t : transaction) (st : scan_state) (e : exn) :
  seed y t st = Raised e -> e = ValueError /\ in_year y t = true.
Proof.
  unfold seed. destruct (in_year y t); simpl.
  - destruct (is_None (max_balance st)); [| discriminate].
    destruct (datetime_date y 12 31) eqn:D; simpl; [discriminate |].
    intros [= <-]. apply datetime_date_raises in D. auto.
  - discriminate.
Qed.

Lemma loop_body_in_year (y : Z) (txs : list transaction) (idx : nat)
    (t : transaction) (st : scan_state) (b : MaxBalanceResult) :
  in_year y t = true -> seed y t st = Returned (Some b) ->
  loop_body y txs idx t st =
  if balance b <? current_balance st - amount t then
    s <- next_older_date y txs idx ;;
    Returned (mk_scan (current_balance st - amount t)
                (Some (mk_max_balance (current_balance st - amount t) s (date t))))
  else Returned (mk_scan (current_balance st - amount t) (Some b)).
Proof.
  intros Hy Hs. unfold loop_body. rewrite Hs, Hy. simpl. reflexivity.
Qed.

Lemma loop_body_returned (y : Z) (txs : list transaction) (idx : nat)
    (t : transaction) (st st' : scan_state) :
  loop_body y txs idx t st = Returned st' ->
  current_balance st' = current_balance st - amount t /\
  ((in_year y t = false /\ max_balance st' = max_balance st) \/
   (in_year y t = true /\
    exists b, seed y t st = Returned (Some b) /\
      ((current_balance st' <= balance b /\ max_balance st' = Some b) \/
       (balance b < current_balance st' /\
        exists s, next_older_date y txs idx = Returned s /\
          max_balance st' =
          Some (mk_max_balance (current_balance st') s (date t)))))).
Proof.
  destruct (in_year y t) eqn:Hy.
  - destruct (seed y t st) as [mb | e] eqn:Hs.
    + destruct (seed_in_year _ _ _ _ Hy Hs) as [b [-> _]].
      rewrite (loop_body_in_year _ _ _ _ _ _ Hy Hs).
      destruct (balance b <? current_balance st - amount t) eqn:Hc.
      * apply Z.ltb_lt in Hc.
        destruct (next_older_date y txs idx) as [s | e] eqn:Hn; simpl;
          [| discriminate].
        intros [= <-]; simpl. split; [reflexivity |]. right.
        split; [reflexivity |]. exists b. split; [reflexivity |]. right.
        split; [assumption |]. exists s. auto.
      * apply Z.ltb_ge in Hc. intros [= <-]; simpl.
        split; [reflexivity |]. right. split; [reflexivity |].
        exists b. split; [reflexivity |]. left. auto.
    + unfold loop_body. rewrite Hs. discriminate.
  - rewrite loop_body_other_year by assumption.
    intros [= <-]; simpl. auto.
Qed.

(** An iteration raises nothing but the [ValueError] of a year outside
    [MINYEAR..MAXYEAR], and only at a transaction of that year. *)
Lemma loop_body_raises (y : Z) (txs : list transaction) (idx : nat)
    (t : transaction) (st : scan_state) (e : exn) :
  loop_body y txs idx t st = Raised e ->
  e = ValueError /\ in_year y t = true.
Proof.
  destruct (in_year y t) eqn:Hy.
  - destruct (seed y t st) as [mb | e'] eqn:Hs.
    + destruct (seed_in_year _ _ _ _ Hy Hs) as [b [-> _]].
      rewrite (loop_body_in_year _ _ _ _ _ _ Hy Hs).
      destruct (balance b <? current_balance st - amount t); [| discriminate].
      rewrite next_older_date_eq.
      destruct (nth_error txs (S idx)); simpl; [discriminate |].
      destruct (datetime_date y 1 1) eqn:D; simpl; [discriminate |].
      intros [= <-]. apply datetime_date_raises in D. auto.
    + unfold loop_body. rewrite Hs. simpl. intros [= <-].
      apply seed_raises in Hs. tauto.
  - rewrite loop_body_other_year by assumption. discriminate.
Qed.


(** ** The whole scan *)

Lemma sum_amounts_firstn_S (l : list transaction) (k : nat) (t : transaction) :
  nth_error l k = Some t ->
  sum_amounts (firstn (S k) l) = sum_amounts (firstn k l) + amount t.
Proof.
  revert k. induction l as [| u l IH]; intros [| k] H; simpl in *;
    try discriminate.
  - injection H as ->. lia.
  - rewrite (IH k H). lia.
Qed.

Lemma running_balance_0 (cb : Z) (txs : list transaction) :
  running_balance cb txs 0 = cb.
Proof. unfold running_balance. simpl. lia. Qed.

Lemma running_balance_S (cb : Z) (txs : list transaction) (k : nat)
    (t : transaction) :
  nth_error txs k = Some t ->
  running_balance cb txs (S k) = running_balance cb txs k - amount t.
Proof.
  intros H. unfold running_balance.
  rewrite (sum_amounts_firstn_S _ _ _ H). lia.
Qed.

Lemma scan_from_app (y : Z) (txs l1 l2 : list transaction) (idx : nat)
    (st : scan_state) :
  scan_from y txs idx (l1 ++ l2) st =
  (st1 <- scan_from y txs idx l1 st ;;
   scan_from y txs (idx + List.length l1) l2 st1).
Proof.
  revert idx st. induction l1 as [| t l1 IH]; intros idx st; simpl.
  - now rewrite Nat.add_0_r.
  - destruct (loop_body y txs idx t st) as [st1 | e]; simpl; [| reflexivity].
    rewrite IH. now rewrite Nat.add_succ_r.
Qed.

Lemma origin_mono (y cb : Z) (txs : list transaction) (k k' : nat)
    (b : MaxBalanceResult) :
  (k <= k')%nat -> origin y cb txs k b -> origin y cb txs k' b.
Proof.
  intros Hk [i t Hi Hf | i t Hi Hn Hy].
  - apply origin_seed; [lia | assumption].
  - apply origin_update; [lia | assumption | assumption].
Qed.

Lemma scan_inv_init (y cb : Z) (txs : list transaction) :
  scan_inv y cb txs 0 (mk_scan cb None).
Proof.
  split; simpl.
  - now rewrite running_balance_0.
  - intros i t Hi. lia.
Qed.

(** One iteration keeps the invariant. *)
Lemma scan_inv_step (y cb : Z) (txs : list transaction) (k : nat)
    (t : transaction) (st st' : scan_state) :
  nth_error txs k = Some t ->
  scan_inv y cb txs k st ->
  loop_body y txs k t st = Returned st' ->
  scan_inv y cb txs (S k) st'.
Proof.
  intros Hk [Hcur Hmax] Hbody.
  destruct (loop_body_returned _ _ _ _ _ _ Hbody) as [Hcur' Hcases].
  assert (Hrun : current_balance st' = running_balance cb txs (S k)).
  { rewrite Hcur', Hcur. symmetry. now apply running_balance_S. }
  split; [exact Hrun |].
  destruct Hcases as [[Hy Hsame] | [Hy [b0 [Hseed Hcmp]]]].
  - (* a transaction of another year *)
    rewrite Hsame. destruct (max_balance st) as [b |].
    + destruct Hmax as [Ho [[i0 [t0 [Hi0 [Hf0 Hle0]]]] Hall]].
      split; [eapply origin_mono; [| exact Ho]; lia |].
      split; [exists i0, t0; split; [lia | split; [exact Hf0 | exact Hle0]] |].
      intros i u Hi Hn Hu.
      destruct (Nat.eq_dec i k) as [-> | Hne].
      * congruence.
      * apply (Hall i u); auto; lia.
    + intros i u Hi Hn.
      destruct (Nat.eq_dec i k) as [-> | Hne].
      * congruence.
      * apply (Hmax i u); auto; lia.
  - (* a transaction of the year: [b0] reaches the comparison *)
    assert (Hb0 : origin y cb txs (S k) b0 /\
                  (exists i u, (i < S k)%nat /\ first_in_year y txs i u /\
                               running_balance cb txs i <= balance b0) /\
                  (forall i u, (i < k)%nat -> nth_error txs i = Some u ->
                               in_year y u = true ->
                               running_balance cb txs (S i) <= balance b0)).
    { destruct (seed_in_year _ _ _ _ Hy Hseed) as [b [Hb Hfrom]].
      injection Hb as <-.
      destruct Hfrom as [Hold | [Hnone ->]].
      - rewrite Hold in Hmax.
        destruct Hmax as [Ho [[i0 [t0 [Hi0 [Hf0 Hle0]]]] Hall]].
        split; [eapply origin_mono; [| exact Ho]; lia |].
        split; [exists i0, t0; split; [lia | split; [exact Hf0 | exact Hle0]] | exact Hall].
      - rewrite Hnone in Hmax. rewrite Hcur.
        assert (Hfirst : first_in_year y txs k t) by (repeat split; auto).
        split; [apply origin_seed; [lia | exact Hfirst] |].
        split.
        + exists k, t. simpl. split; [lia | split; [exact Hfirst | lia]].
        + intros i u Hi Hn Hu. rewrite (Hmax i u Hi Hn) in Hu. discriminate. }
    destruct Hb0 as [Ho [[i0 [t0 [Hi0 [Hf0 Hle0]]]] Hall]].
    destruct Hcmp as [[Hle Hkeep] | [Hlt [s [Hnext Hnew]]]].
    + rewrite Hkeep. split; [exact Ho |].
      split; [exists i0, t0; split; [exact Hi0 | split; [exact Hf0 | exact Hle0]] |].
      intros i u Hi Hn Hu.
      destruct (Nat.eq_dec i k) as [-> | Hne].
      * rewrite <- Hrun. exact Hle.
      * apply (Hall i u); auto; lia.
    + rewrite Hnew.
      assert (Hs : s = match nth_error txs (S k) with
                       | Some u => date u
                       | None => jan1 y
                       end).
      { rewrite next_older_date_eq in Hnext.
        destruct (nth_error txs (S k)).
        - now injection Hnext as <-.
        - now apply datetime_date_returns in Hnext. }
      split.
      * rewrite Hrun, Hs. apply origin_update; auto.
      * simpl. split.
        -- exists i0, t0. split; [exact Hi0 | split; [exact Hf0 | lia]].
        -- intros i u Hi Hn Hu.
           destruct (Nat.eq_dec i k) as [-> | Hne].
           ++ lia.
           ++ specialize (Hall i u ltac:(lia) Hn Hu). lia.
Qed.

Lemma scan_from_inv (y cb : Z) (txs rest : list transaction) :
  forall (k : nat) (st st' : scan_state),
  (forall i t, nth_error rest i = Some t -> nth_error txs (k + i) = Some t) ->
  scan_inv y cb txs k st ->
  scan_from y txs k rest st = Returned st' ->
  scan_inv y cb txs (k + List.length rest) st'.
Proof.
  induction rest as [| t rest IH]; intros k st st' Hpos Hinv Hscan; simpl in *.
  - injection Hscan as <-. now rewrite Nat.add_0_r.
  - destruct (loop_body y txs k t st) as [st1 | e] eqn:Hbody; simpl in Hscan;
      [| discriminate].
    assert (Hk : nth_error txs k = Some t).
    { specialize (Hpos 0%nat t eq_refl). now rewrite Nat.add_0_r in Hpos. }
    rewrite Nat.add_succ_r. apply (IH (S k) st1 st').
    + intros i u Hu. specialize (Hpos (S i) u Hu).
      now rewrite Nat.add_succ_r in Hpos.
    + eapply scan_inv_step; eauto.
    + exact Hscan.
Qed.

(** The invariant at the end of the loop. *)
Lemma scan_inv_final (y cb : Z) (txs : list transaction) (st : scan_state) :
  scan_from y txs 0 txs (mk_scan cb None) = Returned st ->
  scan_inv y cb txs (List.length txs) st.
Proof.
  intros H.
  apply (scan_from_inv y cb txs txs 0 _ _ (fun i t E => E)
           (scan_inv_init y cb txs) H).
Qed.

(** The invariant when the scan reaches position [k]. *)
Lemma scan_inv_prefix (y cb : Z) (txs : list transaction) (k : nat)
    (st : scan_state) :
  (k <= List.length txs)%nat ->
  scan_prefix y cb txs k = Returned st ->
  scan_inv y cb txs k st.
Proof.
  intros Hk H. unfold scan_prefix in H.
  eapply scan_from_inv in H.
  - rewrite firstn_length_le in H by exact Hk. exact H.
  - intros i t E. simpl. rewrite nth_error_firstn in E.
    destruct (Nat.ltb i k); [exact E | discriminate].
  - apply scan_inv_init.
Qed.

(** A scan that ends has passed every position. *)
Lemma scan_prefix_returns (y cb : Z) (txs : list transaction) (k : nat)
    (st : scan_state) :
  scan_from y txs 0 txs (mk_scan cb None) = Returned st ->
  exists st_k, scan_prefix y cb txs k = Returned st_k.
Proof.
  intros H. rewrite <- (firstn_skipn k txs) in H at 2.
  rewrite scan_from_app in H. unfold scan_prefix.
  destruct (scan_from y txs 0 (firstn k txs) (mk_scan cb None)) as [s | e];
    [eauto | discriminate].
Qed.

Lemma computeMaxBalance_returned (cb : Z) (txs : list transaction) (y : Z)
    (m : option MaxBalanceResult) :
  computeMaxBalance cb txs y = Returned m ->
  exists st, scan_from y txs 0 txs (mk_scan cb None) = Returned st /\
             max_balance st = m.
Proof.
  unfold computeMaxBalance.
  destruct (scan_from y txs 0 txs (mk_scan cb None)) as [st | e]; simpl;
    [| discriminate].
  intros [= <-]. eauto.
Qed.

Lemma scan_from_raises (y : Z) (txs rest : list transaction) :
  forall (k : nat) (st : scan_state) (e : exn),
  scan_from y txs k rest st = Raised e ->
  e = ValueError /\ exists t, In t rest /\ in_year y t = true.
Proof.
  induction rest as [| t rest IH]; intros k st e H; simpl in H.
  - discriminate.
  - destruct (loop_body y txs k t st) as [st1 | e1] eqn:Hbody; simpl in H.
    + destruct (IH _ _ _ H) as [He [u [Hin Hu]]].
      split; [exact He |]. exists u. split; [now right | exact Hu].
    + injection H as <-. apply loop_body_raises in Hbody.
      destruct Hbody as [He Hy]. split; [exact He |].
      exists t. split; [now left | exact Hy].
Qed.

Lemma scan_from_other_years (y : Z) (txs rest : list transaction) :
  forall (k : nat) (st : scan_state),
  (forall t, In t rest -> in_year y t = false) ->
  scan_from y txs k rest st =
  Returned (mk_scan (current_balance st - sum_amounts rest) (max_balance st)).
Proof.
  induction rest as [| t rest IH]; intros k st H; simpl.
  - destruct st as [c m]; simpl. f_equal. f_equal. lia.
  - rewrite loop_body_other_year by (apply H; now left). simpl.
    rewrite IH by (intros u Hu; apply H; now right). simpl.
    f_equal. f_equal. lia.
Qed.

(** ** The worked examples *)

(** C1: the scan reproduces the two worked examples of the specification:
    balance 1000 with one deposit of 200 on 2024-06-01 gives
    {1000, 2024-06-01, 2024-12-31}; balance 500 with one withdrawal of 300
    on 2024-03-01 gives {800, 2024-01-01, 2024-03-01}. *)
Theorem worked_examples :
  computeMaxBalance 1000 [tx 2024 6 1 200] 2024 =
    Returned (Some (mk_max_balance 1000 (mkdate 2024 6 1) (mkdate 2024 12 31)))
  /\ computeMaxBalance 500 [tx 2024 3 1 (-300)] 2024 =
    Returned (Some (mk_max_balance 800 (mkdate 2024 1 1) (mkdate 2024 3 1))).
Proof. split; vm_compute; reflexivity. Qed.

(** ** Absence of a result *)

(** C4: for every input, the scan ends with [None] exactly when no
    transaction of the list is dated in the target year; [None] is a
    returned value, not a raised exception. *)
Theorem absent_iff_no_transaction_in_year (cb : Z) (txs : list transaction)
    (y : Z) :
  computeMaxBalance cb txs y = Returned None <->
  (forall t, In t txs -> in_year y t = false).
Proof.
  split.
  - intros H t Hin.
    destruct (computeMaxBalance_returned _ _ _ _ H) as [st [Hscan Hnone]].
    destruct (scan_inv_final _ _ _ _ Hscan) as [_ Hmax].
    rewrite Hnone in Hmax.
    destruct (In_nth_error _ _ Hin) as [i Hi].
    apply (Hmax i t); [| exact Hi].
    apply nth_error_Some. congruence.
  - intros H. unfold computeMaxBalance.
    rewrite scan_from_other_years by exact H. reflexivity.
Qed.

(** ** The comparison never meets [None] *)

(** C9: for every list of transactions, sorted or not, and every target
    year, neither one iteration (from any state) nor the whole scan raises
    the [TypeError] of subscripting [None]: when the comparison of lines
    151-152 is evaluated, [max_balance] holds a record. *)
Theorem comparison_never_subscripts_None :
  (forall (y : Z) (txs : list transaction) (idx : nat) (t : transaction)
          (st : scan_state),
      loop_body y txs idx t st <> Raised TypeError) /\
  (forall (cb : Z) (txs : list transaction) (y : Z),
      computeMaxBalance cb txs y <> Raised TypeError).
Proof.
  split.
  - intros y txs idx t st H. apply loop_body_raises in H.
    destruct H as [H _]. discriminate.
  - intros cb txs y H. unfold computeMaxBalance in H.
    destruct (scan_from y txs 0 txs (mk_scan cb None)) as [st | e] eqn:Hscan;
      simpl in H; [discriminate |].
    injection H as ->. apply scan_from_raises in Hscan.
    destruct Hscan as [H _]. discriminate.
Qed.

(** ** The comparison is strict *)

(** C5: at a transaction of the target year, let [b] be the record that
    reaches the comparison.  If the new running balance equals [b]'s
    balance, or is smaller, the iteration leaves [b] in place; only a
    strictly greater running balance stores a new record. *)
Theorem comparison_is_strict (y : Z) (txs : list transaction) (idx : nat)
    (t : transaction) (st : scan_state) (b : MaxBalanceResult) :
  in_year y t = true ->
  seed y t st = Returned (Some b) ->
  let cb := current_balance st - amount t in
  (cb = balance b ->
   loop_body y txs idx t st = Returned (mk_scan cb (Some b))) /\
  (cb < balance b ->
   loop_body y txs idx t st = Returned (mk_scan cb (Some b))) /\
  (balance b < cb ->
   loop_body y txs idx t st =
   (s <- next_older_date y txs idx ;;
    Returned (mk_scan cb (Some (mk_max_balance cb s (date t)))))) /\
  (forall st', loop_body y txs idx t st = Returned st' ->
               max_balance st' <> Some b -> balance b < cb).
Proof.
  intros Hy Hs cb. rewrite (loop_body_in_year _ _ _ _ _ _ Hy Hs). fold cb.
  repeat split.
  - intros H. replace (balance b <? cb) with false
      by (symmetry; apply Z.ltb_ge; lia). reflexivity.
  - intros H. replace (balance b <? cb) with false
      by (symmetry; apply Z.ltb_ge; lia). reflexivity.
  - intros H. replace (balance b <? cb) with true
      by (symmetry; apply Z.ltb_lt; lia). reflexivity.
  - intros st'. destruct (balance b <? cb) eqn:Hc.
    + intros _ _. now apply Z.ltb_lt.
    + intros [= <-]. simpl. congruence.
Qed.

Lemma comparison_is_strict_witness :
  in_year 2024 (tx 2024 6 1 0) = true /\
  seed 2024 (tx 2024 6 1 0) (mk_scan 1000 None) =
    Returned (Some (mk_max_balance 1000 (mkdate 2024 6 1) (mkdate 2024 12 31))) /\
  loop_body 2024 [tx 2024 6 1 0] 0 (tx 2024 6 1 0) (mk_scan 1000 None) =
    Returned (mk_scan 1000
      (Some (mk_max_balance 1000 (mkdate 2024 6 1) (mkdate 2024 12 31)))).
Proof.
  split; [reflexivity | split; [reflexivity |]].
  apply (proj1 (comparison_is_strict 2024 [tx 2024 6 1 0] 0 (tx 2024 6 1 0)
                  (mk_scan 1000 None)
                  (mk_max_balance 1000 (mkdate 2024 6 1) (mkdate 2024 12 31))
                  eq_refl eq_refl)).
  reflexivity.
Defined.

(** ** Where the start date of an update comes from *)

(** C6: when the update of lines 153-162 fires at position [idx], the
    stored start date is January 1 of the target year if the list has no
    position [idx + 1], and the date of the transaction at [idx + 1]
    otherwise. *)
Theorem update_start_date (y : Z) (txs : list transaction) (idx : nat)
    (t : transaction) (st : scan_state) (b : MaxBalanceResult) :
  valid_date (date t) = true ->
  in_year y t = true ->
  seed y t st = Returned (Some b) ->
  balance b < current_balance st - amount t ->
  exists s,
    loop_body y txs idx t st =
      Returned (mk_scan (current_balance st - amount t)
                  (Some (mk_max_balance (current_balance st - amount t) s
                           (date t)))) /\
    ((List.length txs <= S idx)%nat -> s = jan1 y) /\
    (forall u, nth_error txs (S idx) = Some u -> s = date u).
Proof.
  intros Hv Hy Hs Hlt.
  rewrite (loop_body_in_year _ _ _ _ _ _ Hy Hs).
  replace (balance b <? current_balance st - amount t) with true
    by (symmetry; apply Z.ltb_lt; lia).
  rewrite next_older_date_eq.
  destruct (nth_error txs (S idx)) as [u |] eqn:Hn.
  - exists (date u). split; [reflexivity |]. split.
    + intros Hlen. apply nth_error_None in Hlen. congruence.
    + now intros u' [= <-].
  - exists (jan1 y). apply in_year_true in Hy. subst y.
    rewrite (datetime_date_year_start _ Hv). split; [reflexivity |].
    split; [reflexivity | discriminate].
Qed.

Lemma update_start_date_witness :
  valid_date (date (tx 2024 3 1 (-300))) = true /\
  in_year 2024 (tx 2024 3 1 (-300)) = true /\
  seed 2024 (tx 2024 3 1 (-300)) (mk_scan 500 None) =
    Returned (Some (mk_max_balance 500 (mkdate 2024 3 1) (mkdate 2024 12 31))) /\
  balance (mk_max_balance 500 (mkdate 2024 3 1) (mkdate 2024 12 31))
    < current_balance (mk_scan 500 None) - amount (tx 2024 3 1 (-300)) /\
  exists s,
    loop_body 2024 [tx 2024 3 1 (-300)] 0 (tx 2024 3 1 (-300))
      (mk_scan 500 None) =
      Returned (mk_scan (500 - amount (tx 2024 3 1 (-300)))
                  (Some (mk_max_balance (500 - amount (tx 2024 3 1 (-300))) s
                           (mkdate 2024 3 1)))) /\
    ((List.length [tx 2024 3 1 (-300)] <= 1)%nat -> s = jan1 2024) /\
    (forall u, nth_error [tx 2024 3 1 (-300)] 1 = Some u -> s = date u).
Proof.
  split; [reflexivity |]. split; [reflexivity |]. split; [reflexivity |].
  split; [reflexivity |].
  apply (update_start_date 2024 [tx 2024 3 1 (-300)] 0 (tx 2024 3 1 (-300))
           (mk_scan 500 None)
           (mk_max_balance 500 (mkdate 2024 3 1) (mkdate 2024 12 31))
           eq_refl eq_refl eq_refl eq_refl).
Defined.

(** ** Sorted lists of transactions *)

(** Sortedness of a list that is written out. *)
Ltac sorted_by_computation :=
  repeat first [apply Sorted_nil | apply Sorted_cons
               | apply HdRel_nil | apply HdRel_cons];
  unfold date_le, date_lt; simpl; lia.

Lemma strongly_sorted_nth {A} (R : A -> A -> Prop) (l : list A) :
  StronglySorted R l ->
  forall i j a b, (i < j)%nat ->
    nth_error l i = Some a -> nth_error l j = Some b -> R a b.
Proof.
  induction 1 as [| x l Hs IH Hall]; intros i j a b Hij Hi Hj.
  - destruct i; discriminate.
  - destruct j as [| j]; [lia |]. simpl in Hj. destruct i as [| i].
    + injection Hi as <-. apply nth_error_In in Hj.
      rewrite Forall_forall in Hall. now apply Hall.
    + simpl in Hi. apply (IH i j); auto; lia.
Qed.

Lemma descending_nth (txs : list transaction) (i j : nat) (a b : transaction) :
  descending txs -> (i <= j)%nat ->
  nth_error txs i = Some a -> nth_error txs j = Some b ->
  date_le (date b) (date a).
Proof.
  intros Hs Hij Hi Hj.
  destruct (Nat.eq_dec i j) as [-> | Hne].
  - right. congruence.
  - apply Sorted_StronglySorted in Hs.
    + apply (strongly_sorted_nth _ _ Hs i j a b); auto; lia.
    + intros x y z Hxy Hyz. eapply date_le_trans; eauto.
Qed.

Lemma strictly_descending_nth (txs : list transaction) (i j : nat)
    (a b : transaction) :
  strictly_descending txs -> (i < j)%nat ->
  nth_error txs i = Some a -> nth_error txs j = Some b ->
  date_lt (date b) (date a).
Proof.
  intros Hs Hij Hi Hj. apply Sorted_StronglySorted in Hs.
  - apply (strongly_sorted_nth _ _ Hs i j a b); auto.
  - intros x y z Hxy Hyz. eapply date_lt_trans; eauto.
Qed.

Lemma strictly_descending_descending (txs : list transaction) :
  strictly_descending txs -> descending txs.
Proof.
  unfold strictly_descending, descending.
  induction 1 as [| a l Hs IH Hd]; constructor; [exact IH |].
  destruct Hd; constructor. now left.
Qed.

(** In a sorted list the transactions of one year are contiguous. *)
Lemma in_year_contiguous (y : Z) (txs : list transaction) (i m j : nat)
    (a b c : transaction) :
  descending txs -> (i <= m)%nat -> (m <= j)%nat ->
  nth_error txs i = Some a -> nth_error txs m = Some b ->
  nth_error txs j = Some c ->
  in_year y a = true -> in_year y c = true -> in_year y b = true.
Proof.
  intros Hs Him Hmj Hi Hm Hj Ha Hc.
  apply in_year_true in Ha, Hc. apply in_year_true.
  pose proof (date_le_year _ _ (descending_nth _ _ _ _ _ Hs Him Hi Hm)).
  pose proof (date_le_year _ _ (descending_nth _ _ _ _ _ Hs Hmj Hm Hj)).
  lia.
Qed.

(** ** What a returned record satisfies *)

Lemma result_facts (cb : Z) (txs : list transaction) (y : Z)
    (r : MaxBalanceResult) :
  computeMaxBalance cb txs y = Returned (Some r) ->
  origin y cb txs (List.length txs) r /\
  (exists i t, first_in_year y txs i t /\ running_balance cb txs i <= balance r) /\
  (forall i t, nth_error txs i = Some t -> in_year y t = true ->
               running_balance cb txs (S i) <= balance r).
Proof.
  intros H.
  destruct (computeMaxBalance_returned _ _ _ _ H) as [st [Hscan Hmax]].
  destruct (scan_inv_final _ _ _ _ Hscan) as [_ Hinv].
  rewrite Hmax in Hinv. destruct Hinv as [Ho [[i [t [_ [Hf Hle]]]] Hall]].
  split; [exact Ho |]. split; [exists i, t; auto |].
  intros k u Hk Hu. apply (Hall k u); auto.
  apply nth_error_Some. congruence.
Qed.

(** On a sorted list the record bounds the running balance on entry to and
    on exit from every iteration at a transaction of the year. *)
Lemma result_bounds_running (cb : Z) (txs : list transaction) (y : Z)
    (r : MaxBalanceResult) :
  descending txs ->
  computeMaxBalance cb txs y = Returned (Some r) ->
  forall k t, nth_error txs k = Some t -> in_year y t = true ->
    running_balance cb txs k <= balance r /\
    running_balance cb txs (S k) <= balance r.
Proof.
  intros Hs H k t Hk Hy.
  destruct (result_facts _ _ _ _ H) as [_ [[i0 [t0 [Hf Hle]]] Hall]].
  split; [| now apply (Hall k t)].
  destruct Hf as [Hi0 [Hy0 Hbefore]].
  destruct (Nat.lt_trichotomy k i0) as [Hlt | [-> | Hgt]].
  - rewrite (Hbefore k t Hlt Hk) in Hy. discriminate.
  - exact Hle.
  - destruct k as [| m]; [lia |].
    destruct (nth_error txs m) as [u |] eqn:Hm.
    + apply (Hall m u Hm).
      apply (in_year_contiguous y txs i0 m (S m) t0 u t); auto; lia.
    + apply nth_error_None in Hm.
      assert (S m < List.length txs)%nat by (apply nth_error_Some; congruence).
      lia.
Qed.

(** ** The record bounds every running balance of the year *)

(** C3: on a list sorted strictly descending by date, when a record is
    returned, its balance is at least the value [current_balance] holds
    on entry to, and after the subtraction in, every iteration at a
    transaction of the target year. *)
Theorem result_bounds_scan_states (cb : Z) (txs : list transaction) (y : Z)
    (r : MaxBalanceResult) :
  strictly_descending txs ->
  computeMaxBalance cb txs y = Returned (Some r) ->
  forall k t, nth_error txs k = Some t -> in_year y t = true ->
  exists st st',
    scan_prefix y cb txs k = Returned st /\
    loop_body y txs k t st = Returned st' /\
    current_balance st' = current_balance st - amount t /\
    current_balance st <= balance r /\
    current_balance st' <= balance r.
Proof.
  intros Hs H k t Hk Hy.
  destruct (computeMaxBalance_returned _ _ _ _ H) as [fin [Hscan _]].
  assert (Hlen : (S k <= List.length txs)%nat)
    by (apply nth_error_Some; congruence).
  destruct (scan_prefix_returns y cb txs k _ Hscan) as [st Hst].
  destruct (scan_prefix_returns y cb txs (S k) _ Hscan) as [st' Hst'].
  assert (Hbody : loop_body y txs k t st = Returned st').
  { unfold scan_prefix in Hst, Hst'.
    assert (Hsplit : firstn (S k) txs = firstn k txs ++ [t]).
    { clear - Hk. revert k Hk.
      induction txs as [| u l IH]; intros [| k] Hk; simpl in *;
        try discriminate.
      - now injection Hk as ->.
      - now rewrite (IH k Hk). }
    rewrite Hsplit, scan_from_app, Hst in Hst'. simpl in Hst'.
    rewrite firstn_length_le in Hst' by lia.
    destruct (loop_body y txs k t st); [exact Hst' | discriminate]. }
  destruct (scan_inv_prefix y cb txs k st ltac:(lia) Hst) as [Hc _].
  destruct (scan_inv_prefix y cb txs (S k) st' Hlen Hst') as [Hc' _].
  destruct (result_bounds_running cb txs y r
              (strictly_descending_descending _ Hs) H k t Hk Hy) as [H1 H2].
  exists st, st'. repeat split; auto.
  - rewrite Hc, Hc'. now apply running_balance_S.
  - now rewrite Hc.
  - now rewrite Hc'.
Qed.

Lemma result_bounds_scan_states_witness :
  strictly_descending [tx 2024 3 1 (-300); tx 2024 2 1 100] /\
  exists st st',
    scan_prefix 2024 500 [tx 2024 3 1 (-300); tx 2024 2 1 100] 1 = Returned st /\
    loop_body 2024 [tx 2024 3 1 (-300); tx 2024 2 1 100] 1 (tx 2024 2 1 100) st
      = Returned st' /\
    current_balance st' = current_balance st - amount (tx 2024 2 1 100) /\
    current_balance st <= 800 /\
    current_balance st' <= 800.
Proof.
  assert (Hs : strictly_descending [tx 2024 3 1 (-300); tx 2024 2 1 100]).
  { unfold strictly_descending. sorted_by_computation. }
  split; [exact Hs |].
  apply (result_bounds_scan_states 500
           [tx 2024 3 1 (-300); tx 2024 2 1 100] 2024
           (mk_max_balance 800 (mkdate 2024 2 1) (mkdate 2024 3 1))
           Hs eq_refl 1%nat (tx 2024 2 1 100) eq_refl eq_refl).
Defined.

(** ** The range is ordered and ends within the year *)

Lemma result_range_ordered (cb : Z) (txs : list transaction) (y : Z)
    (r : MaxBalanceResult) :
  Forall (fun t => valid_date (date t) = true) txs ->
  descending txs ->
  computeMaxBalance cb txs y = Returned (Some r) ->
  date_le (start r) (end_ r) /\
  date_le (start r) (dec31 y) /\ date_le (end_ r) (dec31 y).
Proof.
  intros Hv Hs H. rewrite Forall_forall in Hv.
  destruct (result_facts _ _ _ _ H) as [Ho _].
  destruct Ho as [i t Hi [Hn [Hy _]] | i t Hi Hn Hy]; simpl.
  - apply in_year_true in Hy.
    destruct (in_year_between y (date t)
                (Hv t (nth_error_In _ _ Hn)) Hy) as [_ Hend].
    repeat split; auto. now right.
  - apply in_year_true in Hy.
    destruct (in_year_between y (date t)
                (Hv t (nth_error_In _ _ Hn)) Hy) as [Hbeg Hend].
    assert (Hstart : date_le
                       (match nth_error txs (S i) with
                        | Some u => date u
                        | None => jan1 y
                        end) (date t)).
    { destruct (nth_error txs (S i)) as [u |] eqn:Hu; [| exact Hbeg].
      apply (descending_nth txs i (S i) t u); auto. }
    repeat split; auto. eapply date_le_trans; eauto.
Qed.

(** C10: for a list sorted descending by date whose transactions are all
    dated on or after January 1 of the target year, a returned record has
    start <= end, and neither date is later than December 31 of the
    target year.  The dates are [datetime.date] values. *)
Theorem range_ordered_within_year (cb : Z) (txs : list transaction) (y : Z)
    (r : MaxBalanceResult) :
  Forall (fun t => valid_date (date t) = true) txs ->
  descending txs ->
  (forall t, In t txs -> date_le (jan1 y) (date t)) ->
  computeMaxBalance cb txs y = Returned (Some r) ->
  date_le (start r) (end_ r) /\
  date_le (start r) (dec31 y) /\ date_le (end_ r) (dec31 y).
Proof.
  intros Hv Hs _ H. exact (result_range_ordered cb txs y r Hv Hs H).
Qed.

Lemma range_ordered_within_year_witness :
  Forall (fun t => valid_date (date t) = true)
    [tx 2024 3 1 (-300); tx 2024 2 1 100] /\
  descending [tx 2024 3 1 (-300); tx 2024 2 1 100] /\
  (forall t, In t [tx 2024 3 1 (-300); tx 2024 2 1 100] ->
             date_le (jan1 2024) (date t)) /\
  date_le (mkdate 2024 2 1) (mkdate 2024 3 1) /\
  date_le (mkdate 2024 2 1) (dec31 2024) /\
  date_le (mkdate 2024 3 1) (dec31 2024).
Proof.
  assert (Hv : Forall (fun t => valid_date (date t) = true)
                 [tx 2024 3 1 (-300); tx 2024 2 1 100])
    by (repeat constructor).
  assert (Hs : descending [tx 2024 3 1 (-300); tx 2024 2 1 100]).
  { unfold descending. sorted_by_computation. }
  assert (Hj : forall t, In t [tx 2024 3 1 (-300); tx 2024 2 1 100] ->
                         date_le (jan1 2024) (date t)).
  { intros t [<- | [<- | []]]; left; unfold date_lt; simpl; lia. }
  split; [exact Hv |]. split; [exact Hs |]. split; [exact Hj |].
  exact (range_ordered_within_year 500
           [tx 2024 3 1 (-300); tx 2024 2 1 100] 2024
           (mk_max_balance 800 (mkdate 2024 2 1) (mkdate 2024 3 1))
           Hv Hs Hj eq_refl).
Defined.


(** ** The record is the maximum of the year, and the range it held over *)

Lemma date_le_iff (a b : pydate) :
  date_le a b <->
  year a < year b \/
  (year a = year b /\
   (month a < month b \/ (month a = month b /\ day a <= day b))).
Proof.
  unfold date_le, date_lt. destruct a as [ya ma da], b as [yb mb db]; simpl.
  split.
  - intros [H | H]; [lia | inversion H; lia].
  - intros H.
    destruct (Z.eq_dec ya yb), (Z.eq_dec ma mb), (Z.eq_dec da db);
      subst; auto; left; lia.
Qed.

(** Comparisons of dates by arithmetic on their fields. *)
Ltac date_arith :=
  repeat match goal with
         | H : date_le _ _ |- _ => apply date_le_iff in H
         | H : date_ltb _ _ = true |- _ => apply date_ltb_lt in H
         | H : date_ltb _ _ = false |- _ =>
             apply date_ltb_ge in H; apply date_le_iff in H
         | |- date_le _ _ => apply date_le_iff
         end;
  unfold date_lt, jan1, dec31 in *; simpl in *; lia.

Lemma filter_split_at (P : transaction -> bool) (l : list transaction) :
  forall k : nat,
  (forall j x, (j < k)%nat -> nth_error l j = Some x -> P x = true) ->
  (forall j x, (k <= j)%nat -> nth_error l j = Some x -> P x = false) ->
  filter P l = firstn k l.
Proof.
  induction l as [| a l IH]; intros k Hlo Hhi.
  - now rewrite firstn_nil.
  - destruct k as [| k]; simpl.
    + rewrite (Hhi 0%nat a) by (auto; lia).
      rewrite (IH 0%nat); [reflexivity | intros; lia |].
      intros j x Hj Hx. apply (Hhi (S j) x); [lia | exact Hx].
    + rewrite (Hlo 0%nat a) by (auto; lia). f_equal.
      apply IH.
      * intros j x Hj Hx. apply (Hlo (S j) x); [lia | exact Hx].
      * intros j x Hj Hx. apply (Hhi (S j) x); [lia | exact Hx].
Qed.

(** The balance at the end of day [d], when the [k] latest transactions are
    those dated after [d]. *)
Lemma balance_on_running (cb : Z) (txs : list transaction) (d : pydate)
    (k : nat) :
  (forall j x, (j < k)%nat -> nth_error txs j = Some x -> date_lt d (date x)) ->
  (forall j x, (k <= j)%nat -> nth_error txs j = Some x -> date_le (date x) d) ->
  balance_on cb txs d = running_balance cb txs k.
Proof.
  intros Hlo Hhi. unfold balance_on, running_balance.
  rewrite (filter_split_at _ txs k); [reflexivity | |].
  - intros j x Hj Hx. apply date_ltb_lt. eauto.
  - intros j x Hj Hx. apply date_ltb_ge. eauto.
Qed.

(** Before the latest transaction of the year come only later years. *)
Lemma before_first_in_year (y : Z) (txs : list transaction) (i j : nat)
    (t x : transaction) :
  descending txs -> first_in_year y txs i t ->
  (j < i)%nat -> nth_error txs j = Some x ->
  y < year (date x).
Proof.
  intros Hs [Hi [Hy Hbefore]] Hj Hx.
  pose proof (Hbefore j x Hj Hx) as Hout.
  pose proof (date_le_year _ _
                (descending_nth txs j i x t Hs ltac:(lia) Hx Hi)) as Hle.
  apply in_year_true in Hy. unfold in_year in Hout.
  apply Z.eqb_neq in Hout. lia.
Qed.

Lemma result_held_over (cb : Z) (txs : list transaction) (y : Z)
    (r : MaxBalanceResult) :
  descending txs ->
  computeMaxBalance cb txs y = Returned (Some r) ->
  held_over cb txs (start r) (end_ r) (balance r).
Proof.
  intros Hs H d Hfrom Hto.
  destruct (result_facts _ _ _ _ H) as [Ho _].
  destruct Ho as [i t Hi Hf | i t Hi Hn Hy]; cbn [balance start end_] in *.
  - apply balance_on_running.
    + intros j x Hj Hx.
      pose proof (before_first_in_year y txs i j t x Hs Hf Hj Hx).
      date_arith.
    + intros j x Hj Hx. destruct Hf as [Hn _].
      eapply date_le_trans; [| exact Hfrom].
      apply (descending_nth txs i j t x); auto.
  - apply balance_on_running.
    + intros j x Hj Hx.
      eapply date_lt_le_trans; [exact Hto |].
      apply (descending_nth txs j i x t); auto; lia.
    + intros j x Hj Hx.
      destruct (nth_error txs (S i)) as [u |] eqn:Hu.
      * eapply date_le_trans; [| exact Hfrom].
        apply (descending_nth txs (S i) j u x); auto.
      * apply nth_error_None in Hu.
        assert (j < List.length txs)%nat by (apply nth_error_Some; congruence).
        lia.
Qed.

Lemma result_range_open (cb : Z) (txs : list transaction) (y : Z)
    (r : MaxBalanceResult) :
  descending txs ->
  computeMaxBalance cb txs y = Returned (Some r) ->
  forall x, In x txs ->
    ~ (date_lt (start r) (date x) /\ date_lt (date x) (end_ r)).
Proof.
  intros Hs H x Hin [Hafter Hbefore].
  destruct (In_nth_error _ _ Hin) as [j Hx].
  destruct (result_facts _ _ _ _ H) as [Ho _].
  destruct Ho as [i t Hi Hf | i t Hi Hn Hy]; cbn [balance start end_] in *.
  - destruct (Nat.lt_ge_cases j i) as [Hj | Hj].
    + pose proof (before_first_in_year y txs i j t x Hs Hf Hj Hx).
      date_arith.
    + destruct Hf as [Hn _].
      apply (date_lt_not_le _ _ Hafter).
      apply (descending_nth txs i j t x); auto.
  - destruct (Nat.lt_ge_cases i j) as [Hj | Hj].
    + destruct (nth_error txs (S i)) as [u |] eqn:Hu.
      * apply (date_lt_not_le _ _ Hafter).
        apply (descending_nth txs (S i) j u x); auto.
      * apply nth_error_None in Hu.
        assert (j < List.length txs)%nat by (apply nth_error_Some; congruence).
        lia.
    + apply (date_lt_not_le _ _ Hbefore).
      apply (descending_nth txs j i x t); auto.
Qed.

Lemma result_attained (cb : Z) (txs : list transaction) (y : Z)
    (r : MaxBalanceResult) :
  computeMaxBalance cb txs y = Returned (Some r) ->
  exists k t, nth_error txs k = Some t /\ in_year y t = true /\
    (balance r = running_balance cb txs k \/
     balance r = running_balance cb txs (S k)).
Proof.
  intros H. destruct (result_facts _ _ _ _ H) as [Ho _].
  destruct Ho as [i t Hi [Hn [Hy _]] | i t Hi Hn Hy]; simpl;
    exists i, t; auto.
Qed.

Lemma date_le_antisym (a b : pydate) : date_le a b -> date_le b a -> a = b.
Proof.
  intros [Hab | Hab] Hba; [| exact Hab].
  now apply date_lt_not_le in Hab.
Qed.

(** The balance at the end of the day of a transaction. *)
Lemma balance_on_at (cb : Z) (txs : list transaction) (i : nat)
    (t : transaction) :
  strictly_descending txs -> nth_error txs i = Some t ->
  balance_on cb txs (date t) = running_balance cb txs i.
Proof.
  intros Hs Hi. apply balance_on_running.
  - intros j x Hj Hx. apply (strictly_descending_nth txs j i x t); auto.
  - intros j x Hj Hx.
    apply (descending_nth txs i j t x); auto.
    now apply strictly_descending_descending.
Qed.

(** The balance at the end of a day between a transaction and the next
    older one. *)
Lemma balance_on_before (cb : Z) (txs : list transaction) (i : nat)
    (t : transaction) (d : pydate) :
  strictly_descending txs -> nth_error txs i = Some t ->
  date_lt d (date t) ->
  (forall u, nth_error txs (S i) = Some u -> date_le (date u) d) ->
  balance_on cb txs d = running_balance cb txs (S i).
Proof.
  intros Hs Hi Hd Hnext.
  pose proof (strictly_descending_descending _ Hs) as Hs'.
  apply balance_on_running.
  - intros j x Hj Hx. eapply date_lt_le_trans; [exact Hd |].
    apply (descending_nth txs j i x t); auto; lia.
  - intros j x Hj Hx.
    destruct (nth_error txs (S i)) as [u |] eqn:Hu.
    + eapply date_le_trans; [| exact (Hnext u eq_refl)].
      apply (descending_nth txs (S i) j u x); auto.
    + apply nth_error_None in Hu.
      assert (j < List.length txs)%nat by (apply nth_error_Some; congruence).
      lia.
Qed.

(** A span over which the balance keeps the value it has after the
    transaction [t] cannot start before [t], unless [t] changes nothing. *)
Lemma no_extension_left (cb : Z) (txs : list transaction) (j : nat)
    (t : transaction) (s e : pydate) :
  strictly_descending txs -> nth_error txs j = Some t -> amount t <> 0 ->
  date_lt s (date t) -> date_le (date t) e ->
  held_over cb txs s e (running_balance cb txs j) -> False.
Proof.
  intros Hs Hj Hamt Hlt Hle Hheld.
  assert (Hd : exists d, date_le s d /\ date_lt d (date t) /\
                 forall u, nth_error txs (S j) = Some u -> date_le (date u) d).
  { destruct (nth_error txs (S j)) as [u |] eqn:Hu.
    - destruct (date_ltb s (date u)) eqn:Hsu.
      + exists (date u). split; [left; now apply date_ltb_lt |].
        split; [apply (strictly_descending_nth txs j (S j) t u); auto |].
        intros u' [= <-]. now right.
      + exists s. split; [now right |]. split; [exact Hlt |].
        intros u' [= <-]. now apply date_ltb_ge.
    - exists s. split; [now right |]. split; [exact Hlt | discriminate]. }
  destruct Hd as [d [Hsd [Hdt Hnext]]].
  pose proof (Hheld d Hsd (date_lt_le_trans _ _ _ Hdt Hle)) as H1.
  rewrite (balance_on_before cb txs j t d Hs Hj Hdt Hnext) in H1.
  rewrite (running_balance_S cb txs j t Hj) in H1. lia.
Qed.

(** Nor can a span over which the balance keeps the value it had before
    [t] end after [t]. *)
Lemma no_extension_right (cb : Z) (txs : list transaction) (i : nat)
    (t : transaction) (s e : pydate) :
  strictly_descending txs -> nth_error txs i = Some t -> amount t <> 0 ->
  date_le s (date t) -> date_lt (date t) e ->
  held_over cb txs s e (running_balance cb txs (S i)) -> False.
Proof.
  intros Hs Hi Hamt Hle Hlt Hheld.
  pose proof (Hheld (date t) Hle Hlt) as H1.
  rewrite (balance_on_at cb txs i t Hs Hi) in H1.
  rewrite (running_balance_S cb txs i t Hi) in H1. lia.
Qed.

(** When no transaction has amount zero, the range of a returned record
    cannot be extended within the year. *)
Lemma result_longest (cb : Z) (txs : list transaction) (y : Z)
    (r : MaxBalanceResult) :
  Forall (fun t => valid_date (date t) = true) txs ->
  strictly_descending txs ->
  (forall t, In t txs -> amount t <> 0) ->
  computeMaxBalance cb txs y = Returned (Some r) ->
  longest_span y cb txs r.
Proof.
  intros Hv Hs Hamt H s e Hjs Hed Hstart Hend Hheld.
  pose proof (strictly_descending_descending _ Hs) as Hs'.
  destruct (result_range_ordered cb txs y r Hv Hs' H) as [Hord _].
  rewrite Forall_forall in Hv.
  destruct (result_facts _ _ _ _ H) as [Ho _].
  destruct Ho as [i t Hi [Hn [Hy _]] | i t Hi Hn Hy];
    cbn [balance start end_] in *.
  - apply in_year_true in Hy.
    destruct (in_year_between y (date t) (Hv t (nth_error_In _ _ Hn)) Hy)
      as [_ Hdec].
    assert (He : e = dec31 y) by (apply date_le_antisym; assumption).
    split; [| exact He]. destruct Hstart as [Hlt | Heq]; [| exact Heq].
    exfalso. apply (no_extension_left cb txs i t s e); auto.
    + apply Hamt. eapply nth_error_In; eauto.
    + now rewrite He.
  - assert (He : e = date t).
    { destruct Hend as [Hlt | Heq]; [| now symmetry].
      exfalso. apply (no_extension_right cb txs i t s e); auto.
      + apply Hamt. eapply nth_error_In; eauto.
      + eapply date_le_trans; eauto. }
    split; [| exact He].
    destruct (nth_error txs (S i)) as [u |] eqn:Hu.
    + destruct Hstart as [Hlt | Heq]; [| exact Heq].
      exfalso. apply (no_extension_left cb txs (S i) u s e); auto.
      * apply Hamt. eapply nth_error_In; eauto.
      * now rewrite He.
    + apply date_le_antisym; assumption.
Qed.


Lemma plateau_strictly_descending : strictly_descending plateau_txs.
Proof. unfold strictly_descending, plateau_txs. sorted_by_computation. Qed.




(** ** A failed request *)

(** Whatever the budgets, when the request for the accounts of the first
    one fails the script prints the message and stops with [TypeError]. *)
Lemma failed_accounts_request_aborts (y : Z) (b : ynab_budget)
    (bs : list ynab_budget)
    (get_acc : string -> outcome (list ynab_account))
    (get_tx : string -> string -> outcome (list transaction))
    (eur_of : Z -> float_result) (usd_of : spec_float -> float_result) :
  get_acc (budget_id_of b) = Raised ApiException ->
  main y (Returned (b :: bs)) get_acc get_tx eur_of usd_of =
  ([Print api_exception_message], Raised TypeError).
Proof.
  intros H. unfold main, build_accounts, get_budgets, get_accounts.
  simpl. rewrite H. reflexivity.
Qed.

(** C7 fails on the code.  When the request for the accounts of budget
    [b1] fails, or the request for the transactions of account [a1]
    fails, the script prints the message of [handle_exception] and then
    stops with [TypeError] before any table is printed, whatever the float
    arithmetic of the report would do; the account [Savings], whose
    requests all succeed, is not reported.  Against an API that answers
    every request the same account is reported, with its balance of 800
    in the two currencies. *)
Theorem failed_fetch_aborts_report :
  (forall eur_of usd_of,
     main 2024 two_budgets accounts_failing_for_b1 transactions_ok
       eur_of usd_of =
     ([Print api_exception_message], Raised TypeError)) /\
  (forall eur_of usd_of,
     main 2024 one_budget two_accounts transactions_failing_for_a1
       eur_of usd_of =
     ([Print api_exception_message], Raised TypeError)) /\
  (forall eur_of usd_of e u,
     eur_of 800 = FloatOk e -> usd_of e = FloatOk u ->
     main 2024 one_budget savings_only transactions_ok eur_of usd_of =
     ([PrintTable [mk_row "Savings" e u (mkdate 2024 1 1) (mkdate 2024 3 1)]],
      Returned tt)).
Proof.
  split; [| split].
  - intros eur_of usd_of. vm_compute. reflexivity.
  - intros eur_of usd_of. vm_compute. reflexivity.
  - intros eur_of usd_of e u He Hu.
    vm_compute. rewrite He. vm_compute. rewrite Hu. reflexivity.
Qed.

(** ** Lines 137-164 on an account record *)

Lemma account_max_balance_eq (y : Z) (a : account) :
  account_max_balance y a =
  match acct_transactions a with
  | Some txs =>
      mb <- computeMaxBalance (acct_cleared_balance a) txs y ;;
      Returned (set_max_balance a mb)
  | None => Raised KeyError
  end.
Proof.
  unfold account_max_balance. destruct (acct_transactions a); reflexivity.
Qed.


(** ** The list the script hands to the scan *)

Lemma insert_desc_head (t u : transaction) (l : list transaction) :
  date_le (date t) (date u) ->
  HdRel (fun a b => date_le (date b) (date a)) u l ->
  HdRel (fun a b => date_le (date b) (date a)) u (insert_desc t l).
Proof.
  intros Ht Hl. destruct l as [| v l]; simpl.
  - now constructor.
  - destruct (date_ltb (date t) (date v)); constructor; auto.
    now inversion Hl.
Qed.

Lemma insert_desc_descending (t : transaction) (l : list transaction) :
  descending l -> descending (insert_desc t l).
Proof.
  unfold descending. induction 1 as [| u l Hs IH Hd]; simpl.
  - repeat constructor.
  - destruct (date_ltb (date t) (date u)) eqn:E.
    + constructor; [exact IH |].
      apply insert_desc_head; [| exact Hd].
      left. now apply date_ltb_lt.
    + constructor; [now constructor |].
      constructor. now apply date_ltb_ge.
Qed.

(** The sorted list of cleared transactions is in descending order of
    date; transactions of one date may follow each other. *)
Lemma sorted_by_date_reverse_descending (l : list transaction) :
  descending (sorted_by_date_reverse l).
Proof.
  induction l as [| t l IH]; simpl.
  - constructor.
  - now apply insert_desc_descending.
Qed.


Lemma insert_desc_permutation (t : transaction) (l : list transaction) :
  Permutation (insert_desc t l) (t :: l).
Proof.
  induction l as [| u l IH]; simpl.
  - apply Permutation_refl.
  - destruct (date_ltb (date t) (date u)).
    + apply perm_trans with (u :: t :: l).
      * now apply perm_skip.
      * apply perm_swap.
    + apply Permutation_refl.
Qed.

Lemma sorted_by_date_reverse_permutation (l : list transaction) :
  Permutation (sorted_by_date_reverse l) l.
Proof.
  induction l as [| t l IH]; simpl.
  - apply perm_nil.
  - apply perm_trans with (t :: sorted_by_date_reverse l).
    + apply insert_desc_permutation.
    + now apply perm_skip.
Qed.

Lemma is_cleared_true (t : transaction) :
  is_cleared t = true <->
  cleared t = "cleared"%string \/ cleared t = "reconciled"%string.
Proof.
  unfold is_cleared. rewrite orb_true_iff, !String.eqb_eq. tauto.
Qed.


(** A list that is already in descending order of date is left as it
    is. *)
Theorem sorted_by_date_reverse_fixes_descending (l : list transaction) :
  descending l -> sorted_by_date_reverse l = l.
Proof.
  unfold descending. induction 1 as [| t l Hs IH Hd]; simpl.
  - reflexivity.
  - rewrite IH. destruct Hd as [| u l Hu]; simpl.
    + reflexivity.
    + apply date_ltb_ge in Hu. now rewrite Hu.
Qed.

Lemma sorted_by_date_reverse_fixes_descending_witness :
  descending [tx 2024 3 1 (-300); tx 2024 3 1 50; tx 2024 2 1 100] /\
  sorted_by_date_reverse [tx 2024 3 1 (-300); tx 2024 3 1 50; tx 2024 2 1 100]
  = [tx 2024 3 1 (-300); tx 2024 3 1 50; tx 2024 2 1 100].
Proof.
  assert (Hs : descending
                 [tx 2024 3 1 (-300); tx 2024 3 1 50; tx 2024 2 1 100]).
  { unfold descending.
    repeat first [apply Sorted_nil | apply Sorted_cons
                 | apply HdRel_nil | apply HdRel_cons];
      apply date_le_iff; simpl; lia. }
  split; [exact Hs |].
  exact (sorted_by_date_reverse_fixes_descending _ Hs).
Defined.

(** ** The scan raises nothing on calendar dates *)

Lemma loop_body_returns (y : Z) (txs : list transaction) (idx : nat)
    (t : transaction) (st : scan_state) :
  valid_date (date t) = true ->
  exists st', loop_body y txs idx t st = Returned st'.
Proof.
  intros Hv. destruct (in_year y t) eqn:Hy.
  - assert (Hseed : exists b, seed y t st = Returned (Some b)).
    { unfold seed. rewrite Hy. pose proof Hy as Hy'.
      apply in_year_true in Hy'. subst y.
      destruct (max_balance st) as [b |]; simpl; [eauto |].
      rewrite (datetime_date_year_end _ Hv). simpl. eauto. }
    destruct Hseed as [b Hseed].
    rewrite (loop_body_in_year _ _ _ _ _ _ Hy Hseed).
    destruct (balance b <? current_balance st - amount t); [| eauto].
    rewrite next_older_date_eq.
    destruct (nth_error txs (S idx)); simpl; [eauto |].
    apply in_year_true in Hy. subst y.
    rewrite (datetime_date_year_start _ Hv). simpl. eauto.
  - rewrite loop_body_other_year by assumption. eauto.
Qed.

Lemma scan_from_returns (y : Z) (txs rest : list transaction) :
  Forall (fun t => valid_date (date t) = true) rest ->
  forall (k : nat) (st : scan_state),
  exists st', scan_from y txs k rest st = Returned st'.
Proof.
  induction 1 as [| t rest Hv Hrest IH]; intros k st; simpl.
  - eauto.
  - destruct (loop_body_returns y txs k t st Hv) as [st1 ->]. simpl.
    apply IH.
Qed.

(** When every transaction carries a calendar date, the scan returns, a
    record or [None], for every balance, every order of the list and
    every target year, also a year outside [MINYEAR..MAXYEAR]: lines
    137-163 raise no exception. *)
Theorem scan_returns_on_calendar_dates (cb : Z) (txs : list transaction)
    (y : Z) :
  Forall (fun t => valid_date (date t) = true) txs ->
  exists m, computeMaxBalance cb txs y = Returned m.
Proof.
  intros Hv. unfold computeMaxBalance.
  destruct (scan_from_returns y txs txs Hv 0%nat (mk_scan cb None)) as [st ->].
  simpl. eauto.
Qed.

Lemma scan_returns_on_calendar_dates_witness :
  Forall (fun t => valid_date (date t) = true)
    [tx 2024 2 29 10; tx 2025 1 1 (-5)] /\
  exists m, computeMaxBalance 0 [tx 2024 2 29 10; tx 2025 1 1 (-5)] 0
            = Returned m.
Proof.
  assert (Hv : Forall (fun t => valid_date (date t) = true)
                 [tx 2024 2 29 10; tx 2025 1 1 (-5)])
    by (repeat constructor).
  split; [exact Hv |].
  exact (scan_returns_on_calendar_dates 0 _ 0 Hv).
Defined.

(** ** Where the range lies *)

(** For every list, sorted or not, the end date of a returned record lies
    in the target year: it is December 31 of that year or the date of a
    transaction of that year. *)
Theorem end_date_in_target_year (cb : Z) (txs : list transaction) (y : Z)
    (r : MaxBalanceResult) :
  computeMaxBalance cb txs y = Returned (Some r) ->
  year (end_ r) = y /\
  (end_ r = dec31 y \/
   exists t, In t txs /\ in_year y t = true /\ end_ r = date t).
Proof.
  intros H. destruct (result_facts _ _ _ _ H) as [Ho _].
  destruct Ho as [i t Hi Hf | i t Hi Hn Hy]; simpl.
  - split; [reflexivity | now left].
  - split; [now apply in_year_true |].
    right. exists t. split; [eapply nth_error_In; eauto | auto].
Qed.

Lemma end_date_in_target_year_witness :
  year (mkdate 2024 3 1) = 2024 /\
  (mkdate 2024 3 1 = dec31 2024 \/
   exists t, In t [tx 2024 3 1 (-300)] /\ in_year 2024 t = true /\
             mkdate 2024 3 1 = date t).
Proof.
  exact (end_date_in_target_year 500 [tx 2024 3 1 (-300)] 2024
           (mk_max_balance 800 (mkdate 2024 1 1) (mkdate 2024 3 1)) eq_refl).
Defined.

(** When no transaction is dated before January 1 of the target year, as
    the request [since_date] of [get_transactions] provides, the start
    date of a returned record is not before January 1 of that year,
    whatever the order of the list. *)
Theorem start_date_not_before_year (cb : Z) (txs : list transaction) (y : Z)
    (r : MaxBalanceResult) :
  (forall t, In t txs -> date_le (jan1 y) (date t)) ->
  computeMaxBalance cb txs y = Returned (Some r) ->
  date_le (jan1 y) (start r).
Proof.
  intros Hj H. destruct (result_facts _ _ _ _ H) as [Ho _].
  destruct Ho as [i t Hi [Hn _] | i t Hi Hn Hy]; cbn [start].
  - apply Hj. eapply nth_error_In; eauto.
  - destruct (nth_error txs (S i)) as [u |] eqn:Hu.
    + apply Hj. eapply nth_error_In; eauto.
    + now right.
Qed.

Lemma start_date_not_before_year_witness :
  (forall t, In t [tx 2024 3 1 (-300); tx 2024 2 1 100] ->
             date_le (jan1 2024) (date t)) /\
  date_le (jan1 2024) (mkdate 2024 2 1).
Proof.
  assert (Hj : forall t, In t [tx 2024 3 1 (-300); tx 2024 2 1 100] ->
                         date_le (jan1 2024) (date t)).
  { intros t [<- | [<- | []]]; left; unfold date_lt; simpl; lia. }
  split; [exact Hj |].
  exact (start_date_not_before_year 500
           [tx 2024 3 1 (-300); tx 2024 2 1 100] 2024
           (mk_max_balance 800 (mkdate 2024 2 1) (mkdate 2024 3 1))
           Hj eq_refl).
Defined.

(** ** The scan and the starting balance *)

Lemma seed_shift (c y : Z) (t : transaction) (st : scan_state) :
  seed y t (shift_state c st) =
  outcome_map (option_map (shift_result c)) (seed y t st).
Proof.
  unfold seed, shift_state; simpl.
  destruct (in_year y t), (max_balance st); simpl; try reflexivity.
  destruct (datetime_date y 12 31); reflexivity.
Qed.

Lemma loop_body_shift (c y : Z) (txs : list transaction) (idx : nat)
    (t : transaction) (st : scan_state) :
  loop_body y txs idx t (shift_state c st) =
  outcome_map (shift_state c) (loop_body y txs idx t st).
Proof.
  unfold loop_body. rewrite seed_shift.
  destruct (seed y t st) as [mb | e]; simpl; [| reflexivity].
  replace (current_balance st + c - amount t)
    with (current_balance st - amount t + c) by lia.
  destruct (in_year y t); simpl; [| reflexivity].
  destruct mb as [b |]; simpl; [| reflexivity].
  replace (balance b + c <? current_balance st - amount t + c)
    with (balance b <? current_balance st - amount t)
    by (destruct (Z.ltb_spec (balance b) (current_balance st - amount t));
        symmetry; [apply Z.ltb_lt | apply Z.ltb_ge]; lia).
  destruct (balance b <? current_balance st - amount t); [| reflexivity].
  destruct (next_older_date y txs idx); reflexivity.
Qed.

Lemma scan_from_shift (c y : Z) (txs rest : list transaction) :
  forall (k : nat) (st : scan_state),
  scan_from y txs k rest (shift_state c st) =
  outcome_map (shift_state c) (scan_from y txs k rest st).
Proof.
  induction rest as [| t rest IH]; intros k st; simpl.
  - reflexivity.
  - rewrite loop_body_shift.
    destruct (loop_body y txs k t st) as [st1 | e]; simpl; [| reflexivity].
    apply IH.
Qed.

(** Raising the cleared balance by [c] raises the balance of the result by
    [c] and changes nothing else: the same dates, [None] where it was
    [None], the same exception where one was raised. *)
Theorem result_shifts_with_cleared_balance (cb c : Z)
    (txs : list transaction) (y : Z) :
  computeMaxBalance (cb + c) txs y =
  outcome_map (option_map (shift_result c)) (computeMaxBalance cb txs y).
Proof.
  unfold computeMaxBalance.
  change (mk_scan (cb + c) None) with (shift_state c (mk_scan cb None)).
  rewrite scan_from_shift.
  destruct (scan_from y txs 0 txs (mk_scan cb None)); reflexivity.
Qed.

Lemma loop_body_prefix (y : Z) (pre txs : list transaction) (k : nat)
    (t : transaction) (st : scan_state) :
  loop_body y (pre ++ txs) (List.length pre + k) t st =
  loop_body y txs k t st.
Proof.
  assert (Hn : next_older_date y (pre ++ txs) (List.length pre + k) =
               next_older_date y txs k).
  { rewrite !next_older_date_eq.
    rewrite nth_error_app2 by lia.
    replace (S (List.length pre + k) - List.length pre)%nat with (S k) by lia.
    reflexivity. }
  unfold loop_body. rewrite Hn. reflexivity.
Qed.

Lemma scan_from_prefix (y : Z) (pre txs rest : list transaction) :
  forall (k : nat) (st : scan_state),
  scan_from y (pre ++ txs) (List.length pre + k) rest st =
  scan_from y txs k rest st.
Proof.
  induction rest as [| t rest IH]; intros k st; simpl.
  - reflexivity.
  - rewrite loop_body_prefix.
    destruct (loop_body y txs k t st) as [st1 | e]; simpl; [| reflexivity].
    rewrite <- Nat.add_succ_r. apply IH.
Qed.

(** Transactions that stand before the rest of the list and are not dated
    in the target year, as those of later years do in a sorted list, act
    on the result only through their sum: the scan of the whole list from
    [cb] is the scan of the rest from [cb] minus that sum. *)
Theorem later_transactions_fold_into_balance (cb : Z)
    (pre txs : list transaction) (y : Z) :
  (forall t, In t pre -> in_year y t = false) ->
  computeMaxBalance cb (pre ++ txs) y =
  computeMaxBalance (cb - sum_amounts pre) txs y.
Proof.
  intros Hpre. unfold computeMaxBalance.
  rewrite scan_from_app, (scan_from_other_years _ _ _ _ _ Hpre). simpl.
  rewrite <- (Nat.add_0_r (List.length pre)).
  rewrite scan_from_prefix. reflexivity.
Qed.

Lemma later_transactions_fold_into_balance_witness :
  (forall t, In t [tx 2025 2 1 40; tx 2025 1 5 (-10)] ->
             in_year 2024 t = false) /\
  computeMaxBalance 530
    ([tx 2025 2 1 40; tx 2025 1 5 (-10)] ++ [tx 2024 3 1 (-300)]) 2024 =
  computeMaxBalance (530 - sum_amounts [tx 2025 2 1 40; tx 2025 1 5 (-10)])
    [tx 2024 3 1 (-300)] 2024.
Proof.
  assert (Hpre : forall t, In t [tx 2025 2 1 40; tx 2025 1 5 (-10)] ->
                           in_year 2024 t = false).
  { intros t [<- | [<- | []]]; reflexivity. }
  split; [exact Hpre |].
  exact (later_transactions_fold_into_balance 530 _ [tx 2024 3 1 (-300)]
           2024 Hpre).
Defined.


(** ** How the script ends *)

Lemma io_bind_ret {A B} (a : A) (k : A -> io B) : io_bind (io_ret a) k = k a.
Proof. unfold io_bind, io_ret. destruct (k a). reflexivity. Qed.

Lemma quiet_ret {A} (a : A) : quiet_or_aborted (io_ret a).
Proof. left. split; [reflexivity | discriminate]. Qed.

Lemma quiet_or_aborted_bind {A B} (c : io A) (k : A -> io B) :
  quiet_or_aborted c -> (forall a, quiet_or_aborted (k a)) ->
  quiet_or_aborted (io_bind c k).
Proof.
  intros [[Hq Hne] | ->] Hk.
  - destruct c as [o [a | e]]; simpl in Hq, Hne; subst o.
    + change (@nil output, Returned a) with (io_ret a).
      rewrite io_bind_ret. apply Hk.
    + left. split; [reflexivity |]. simpl. intros [= ->]. now apply Hne.
  - right. reflexivity.
Qed.

(** A request through [handle_exception], then a loop over its result. *)
Lemma quiet_or_aborted_request {A B} (call : outcome (list A))
    (k : list A -> io B) :
  (forall l, quiet_or_aborted (k l)) ->
  quiet_or_aborted (v <~ handle_exception call ;; l <~ iter v ;; k l).
Proof.
  intros Hk. destruct call as [l | e].
  - simpl handle_exception. rewrite io_bind_ret. simpl iter.
    rewrite io_bind_ret. apply Hk.
  - destruct e; try (left; split; [reflexivity | discriminate]).
    right. reflexivity.
Qed.

Lemma quiet_or_aborted_for_each {A S} (body : A -> S -> io S) (l : list A) :
  (forall x s, quiet_or_aborted (body x s)) ->
  forall s, quiet_or_aborted (for_each body l s).
Proof.
  intros Hb. induction l as [| x l IH]; intros s; simpl.
  - apply quiet_ret.
  - apply quiet_or_aborted_bind; auto.
Qed.

Lemma quiet_or_aborted_for_each_update {A} (body : A -> io A) (l : list A) :
  (forall x, quiet_or_aborted (body x)) ->
  quiet_or_aborted (for_each_update body l).
Proof.
  intros Hb. induction l as [| x l IH]; simpl.
  - apply quiet_ret.
  - apply quiet_or_aborted_bind; [apply Hb |]. intros x'.
    apply quiet_or_aborted_bind; [exact IH |]. intros l'. apply quiet_ret.
Qed.

Lemma computeMaxBalance_raises (cb : Z) (txs : list transaction) (y : Z)
    (e : exn) :
  computeMaxBalance cb txs y = Raised e -> e = ValueError.
Proof.
  unfold computeMaxBalance.
  destruct (scan_from y txs 0 txs (mk_scan cb None)) as [st | e'] eqn:H;
    simpl; [discriminate |].
  intros [= <-]. now apply scan_from_raises in H.
Qed.

Lemma account_max_balance_quiet (y : Z) (a : account) :
  quiet_or_aborted (lift (account_max_balance y a)).
Proof.
  left. split; [reflexivity |]. simpl. rewrite account_max_balance_eq.
  destruct (acct_transactions a) as [txs |]; [| discriminate].
  destruct (computeMaxBalance (acct_cleared_balance a) txs y) as [m | e]
    eqn:H; simpl; [discriminate |].
  apply computeMaxBalance_raises in H. subst e. discriminate.
Qed.

Lemma report_row_quiet (y : Z) (eur_of : Z -> float_result)
    (usd_of : spec_float -> float_result) (a : account) :
  quiet_or_aborted (lift (report_row y eur_of usd_of a)).
Proof.
  left. split; [reflexivity |]. simpl. unfold report_row.
  destruct (acct_max_balance a) as [[r |] |]; simpl; try discriminate.
  { destruct (eur_of (balance r)) as [x | e]; simpl;
      [| destruct e; discriminate].
    destruct (usd_of x) as [x' | e]; simpl;
      [discriminate | destruct e; discriminate]. }
  destruct (datetime_date y 1 1) as [d1 | e1] eqn:H1; simpl.
  - destruct (datetime_date y 12 31) as [d2 | e2] eqn:H2; simpl;
      [discriminate |].
    apply datetime_date_raises in H2. subst e2. discriminate.
  - apply datetime_date_raises in H1. subst e1. discriminate.
Qed.

Lemma quiet_or_aborted_accounts (y : Z)
    (get_b : outcome (list ynab_budget))
    (get_acc : string -> outcome (list ynab_account))
    (get_tx : string -> string -> outcome (list transaction)) :
  quiet_or_aborted
    (accounts <~ build_accounts get_b get_acc ;;
     accounts <~ add_transactions get_tx accounts ;;
     max_balances y accounts).
Proof.
  apply quiet_or_aborted_bind.
  - unfold build_accounts, get_budgets.
    apply quiet_or_aborted_request. intros bs.
    apply quiet_or_aborted_for_each. intros b acc.
    unfold get_accounts. apply quiet_or_aborted_request. intros l.
    apply quiet_or_aborted_for_each. intros a acc'. apply quiet_ret.
  - intros accounts. apply quiet_or_aborted_bind.
    + unfold add_transactions. apply quiet_or_aborted_for_each_update.
      intros a. unfold get_transactions.
      apply (quiet_or_aborted_request _
               (fun transactions =>
                  io_ret (set_transactions a
                            (sorted_by_date_reverse
                               (filter is_cleared transactions))))).
      intros l. apply quiet_ret.
    + intros accounts'. unfold max_balances.
      apply quiet_or_aborted_for_each_update. intros a.
      apply account_max_balance_quiet.
Qed.

Lemma main_eq (y : Z)
    (get_b : outcome (list ynab_budget))
    (get_acc : string -> outcome (list ynab_account))
    (get_tx : string -> string -> outcome (list transaction))
    (eur_of : Z -> float_result) (usd_of : spec_float -> float_result) :
  main y get_b get_acc get_tx eur_of usd_of =
  io_bind (accounts <~ build_accounts get_b get_acc ;;
           accounts <~ add_transactions get_tx accounts ;;
           max_balances y accounts)
          (print_report y eur_of usd_of).
Proof.
  unfold main.
  destruct (build_accounts get_b get_acc) as [o1 [a1 | e1]]; [| reflexivity].
  simpl. destruct (add_transactions get_tx a1) as [o2 [a2 | e2]];
    [| reflexivity].
  simpl. destruct (max_balances y a2) as [o3 [a3 | e3]]; [| reflexivity].
  simpl. destruct (print_report y eur_of usd_of a3) as [o4 r4]. simpl.
  now rewrite !app_assoc.
Qed.

(** Whatever the API answers, the script ends in one of three ways: with
    the message of [handle_exception] printed once and then [TypeError];
    with an exception other than [ApiException] and nothing printed; or
    with one table printed and nothing else.  It never prints a table
    after a failed request. *)
Theorem main_ends_in_one_of_three_ways (y : Z)
    (get_b : outcome (list ynab_budget))
    (get_acc : string -> outcome (list ynab_account))
    (get_tx : string -> string -> outcome (list transaction))
    (eur_of : Z -> float_result) (usd_of : spec_float -> float_result) :
  main y get_b get_acc get_tx eur_of usd_of =
    ([Print api_exception_message], Raised TypeError) \/
  (exists e, e <> ApiException /\
             main y get_b get_acc get_tx eur_of usd_of = ([], Raised e)) \/
  (exists rows, main y get_b get_acc get_tx eur_of usd_of =
                ([PrintTable rows], Returned tt)).
Proof.
  rewrite main_eq.
  destruct (quiet_or_aborted_accounts y get_b get_acc get_tx)
    as [[Hq Hne] | ->]; [| left; reflexivity].
  destruct (accounts <~ build_accounts get_b get_acc ;;
            accounts <~ add_transactions get_tx accounts ;;
            max_balances y accounts) as [o [accounts | e]];
    simpl in Hq, Hne; subst o.
  - change (@nil output, Returned accounts) with (io_ret accounts).
    rewrite io_bind_ret. unfold print_report.
    assert (Hrows : quiet_or_aborted
              (for_each
                 (fun account rows =>
                    r <~ lift (report_row y eur_of usd_of account) ;;
                    io_ret (rows ++ [r]))
                 accounts [])).
    { apply quiet_or_aborted_for_each. intros a rows.
      apply quiet_or_aborted_bind; [apply report_row_quiet |].
      intros r. apply quiet_ret. }
    destruct Hrows as [[Hrows Hne'] | ->]; [| left; reflexivity].
    destruct (for_each _ accounts []) as [o [rows | e]];
      simpl in Hrows, Hne'; subst o.
    + right. right. exists rows. reflexivity.
    + right. left. exists e. split; [congruence | reflexivity].
  - right. left. exists e. split; [congruence | reflexivity].
Qed.

(** ** A run in which every request is answered *)

Lemma datetime_date_in_range (y : Z) :
  MINYEAR <= y <= MAXYEAR ->
  datetime_date y 12 31 = Returned (dec31 y) /\
  datetime_date y 1 1 = Returned (jan1 y).
Proof.
  intros Hy. unfold datetime_date, valid_ymd, days_in_month; simpl.
  replace (MINYEAR <=? y) with true by (symmetry; apply Z.leb_le; lia).
  replace (y <=? MAXYEAR) with true by (symmetry; apply Z.leb_le; lia).
  split; reflexivity.
Qed.

Lemma loop_body_returns_in_range (y : Z) (txs : list transaction) (idx : nat)
    (t : transaction) (st : scan_state) :
  MINYEAR <= y <= MAXYEAR ->
  exists st', loop_body y txs idx t st = Returned st'.
Proof.
  intros Hr. destruct (datetime_date_in_range y Hr) as [Hend Hstart].
  destruct (in_year y t) eqn:Hy.
  - assert (Hseed : exists b, seed y t st = Returned (Some b)).
    { unfold seed. rewrite Hy.
      destruct (max_balance st) as [b |]; simpl; [eauto |].
      rewrite Hend. simpl. eauto. }
    destruct Hseed as [b Hseed].
    rewrite (loop_body_in_year _ _ _ _ _ _ Hy Hseed).
    destruct (balance b <? current_balance st - amount t); [| eauto].
    rewrite next_older_date_eq.
    destruct (nth_error txs (S idx)); simpl; [eauto |].
    rewrite Hstart. simpl. eauto.
  - rewrite loop_body_other_year by assumption. eauto.
Qed.

Lemma computeMaxBalance_returns_in_range (cb : Z) (txs : list transaction)
    (y : Z) :
  MINYEAR <= y <= MAXYEAR ->
  exists m, computeMaxBalance cb txs y = Returned m.
Proof.
  intros Hr. unfold computeMaxBalance.
  assert (H : forall rest k st,
             exists st', scan_from y txs k rest st = Returned st').
  { induction rest as [| t rest IH]; intros k st; simpl; [eauto |].
    destruct (loop_body_returns_in_range y txs k t st Hr) as [st1 ->].
    simpl. apply IH. }
  destruct (H txs 0%nat (mk_scan cb None)) as [st ->]. simpl. eauto.
Qed.

Lemma for_each_append {A B} (f : A -> B) (l : list A) :
  forall acc : list B,
  for_each (fun x acc => io_ret (acc ++ [f x])) l acc = io_ret (acc ++ map f l).
Proof.
  induction l as [| x l IH]; intros acc; cbn [for_each map].
  - now rewrite app_nil_r.
  - rewrite io_bind_ret, IH, <- app_assoc. reflexivity.
Qed.

Lemma for_each_update_map {A} (body : A -> io A) (f : A -> A) (l : list A) :
  (forall x, In x l -> body x = io_ret (f x)) ->
  for_each_update body l = io_ret (map f l).
Proof.
  induction l as [| x l IH]; intros H; cbn [for_each_update map].
  - reflexivity.
  - rewrite (H x) by now left. rewrite io_bind_ret.
    rewrite IH by (intros x' Hx'; apply H; now right).
    now rewrite !io_bind_ret.
Qed.

Lemma for_each_rows {A B} (body : A -> outcome B) (g : A -> B) (l : list A) :
  (forall x, In x l -> body x = Returned (g x)) ->
  forall acc : list B,
  for_each (fun x rows => r <~ lift (body x) ;; io_ret (rows ++ [r])) l acc =
  io_ret (acc ++ map g l).
Proof.
  induction l as [| x l IH]; intros H acc; cbn [for_each map].
  - now rewrite app_nil_r.
  - rewrite (H x) by now left.
    change (lift (Returned (g x))) with (io_ret (g x)).
    rewrite !io_bind_ret.
    rewrite IH by (intros x' Hx'; apply H; now right).
    now rewrite <- app_assoc.
Qed.

Lemma budgets_loop_returns (bs : list ynab_budget)
    (get_acc : string -> outcome (list ynab_account))
    (accs : string -> list ynab_account) :
  (forall b, In b bs ->
             get_acc (budget_id_of b) = Returned (accs (budget_id_of b))) ->
  forall acc : list account,
  for_each
    (fun _budget accounts =>
       _accounts <~ get_accounts get_acc (budget_id_of _budget) ;;
       ynab_accounts <~ iter _accounts ;;
       for_each
         (fun _account accounts =>
            io_ret (accounts ++ [to_account _account (budget_id_of _budget)]))
         ynab_accounts accounts)
    bs acc =
  io_ret (acc ++ fetched_accounts bs accs).
Proof.
  induction bs as [| b bs IH]; intros H acc; cbn [for_each].
  - unfold fetched_accounts. cbn [flat_map]. now rewrite app_nil_r.
  - unfold get_accounts at 1. rewrite (H b) by now left.
    cbn [handle_exception]. rewrite io_bind_ret. cbn [iter].
    rewrite io_bind_ret. cbv beta.
    rewrite (for_each_append (fun a => to_account a (budget_id_of b))).
    rewrite io_bind_ret. cbv beta.
    rewrite IH by (intros b' Hb'; apply H; now right).
    unfold fetched_accounts. cbn [flat_map]. now rewrite app_assoc.
Qed.

(** The first loop, when the budgets and every budget's accounts are
    returned. *)
Lemma build_accounts_returns (bs : list ynab_budget)
    (get_acc : string -> outcome (list ynab_account))
    (accs : string -> list ynab_account) :
  (forall b, In b bs ->
             get_acc (budget_id_of b) = Returned (accs (budget_id_of b))) ->
  build_accounts (Returned bs) get_acc = io_ret (fetched_accounts bs accs).
Proof.
  intros H. unfold build_accounts, get_budgets. cbn [handle_exception].
  rewrite io_bind_ret. cbn [iter]. rewrite io_bind_ret. cbv beta.
  now rewrite (budgets_loop_returns bs get_acc accs H).
Qed.

(** The row the script prints for one account whose transactions are
    returned. *)
Lemma account_row (y : Z) (eur_of : Z -> float_result)
    (usd_of : spec_float -> float_result) (eur : Z -> spec_float)
    (usd : spec_float -> spec_float) (a : account)
    (fetched : list transaction) :
  MINYEAR <= y <= MAXYEAR ->
  (forall r,
     computeMaxBalance (acct_cleared_balance a)
       (sorted_by_date_reverse (filter is_cleared fetched)) y
     = Returned (Some r) ->
     eur_of (balance r) = FloatOk (eur (balance r)) /\
     usd_of (eur (balance r)) = FloatOk (usd (eur (balance r)))) ->
  exists a',
    account_max_balance y
      (set_transactions a (sorted_by_date_reverse (filter is_cleared fetched)))
    = Returned a' /\
    report_row y eur_of usd_of a' = Returned (expected_row y eur usd a fetched).
Proof.
  intros Hr Hfloat. rewrite account_max_balance_eq. simpl.
  unfold expected_row.
  destruct (computeMaxBalance_returns_in_range (acct_cleared_balance a)
              (sorted_by_date_reverse (filter is_cleared fetched)) y Hr)
    as [m Hm].
  rewrite Hm in *. simpl. eexists. split; [reflexivity |].
  unfold report_row; simpl. destruct m as [r |].
  - destruct (Hfloat r eq_refl) as [He Hu].
    rewrite He. simpl. rewrite Hu. reflexivity.
  - destruct (datetime_date_in_range y Hr) as [-> ->]. reflexivity.
Qed.

(** When the target year is a calendar year, every request the script
    makes is answered and the float arithmetic of the report returns for
    the balance of every record (as [eur] and [usd]), the script prints
    exactly one table and returns: one row per account, budget after
    budget in the order of the API, each row built from the account's
    cleared or reconciled transactions; an account without a transaction
    in the target year gets the placeholder row 0.00, 0.00, January 1,
    December 31. *)
Theorem report_when_every_request_is_answered (y : Z)
    (bs : list ynab_budget)
    (get_acc : string -> outcome (list ynab_account))
    (get_tx : string -> string -> outcome (list transaction))
    (eur_of : Z -> float_result) (usd_of : spec_float -> float_result)
    (accs : string -> list ynab_account)
    (trs : string -> string -> list transaction)
    (eur : Z -> spec_float) (usd : spec_float -> spec_float) :
  MINYEAR <= y <= MAXYEAR ->
  (forall b, In b bs ->
             get_acc (budget_id_of b) = Returned (accs (budget_id_of b))) ->
  (forall a, In a (fetched_accounts bs accs) ->
             get_tx (acct_budget_id a) (acct_id a) =
             Returned (trs (acct_budget_id a) (acct_id a))) ->
  (forall a r, In a (fetched_accounts bs accs) ->
     computeMaxBalance (acct_cleared_balance a)
       (sorted_by_date_reverse
          (filter is_cleared (trs (acct_budget_id a) (acct_id a)))) y
     = Returned (Some r) ->
     eur_of (balance r) = FloatOk (eur (balance r)) /\
     usd_of (eur (balance r)) = FloatOk (usd (eur (balance r)))) ->
  main y (Returned bs) get_acc get_tx eur_of usd_of =
  ([PrintTable
      (map (fun a => expected_row y eur usd a
                       (trs (acct_budget_id a) (acct_id a)))
           (fetched_accounts bs accs))],
   Returned tt).
Proof.
  intros Hr Hacc Htx Hfloat. unfold main.
  rewrite (build_accounts_returns bs get_acc accs Hacc), io_bind_ret.
  set (A := fetched_accounts bs accs) in *.
  set (f2 := fun a : account =>
               set_transactions a
                 (sorted_by_date_reverse
                    (filter is_cleared (trs (acct_budget_id a) (acct_id a))))).
  set (f3 := fun x : account =>
               match account_max_balance y x with
               | Returned x' => x'
               | Raised _ => x
               end).
  set (g := fun x : account =>
              match report_row y eur_of usd_of x with
              | Returned r => r
              | Raised _ =>
                  mk_row EmptyString float_zero float_zero (jan1 y) (dec31 y)
              end).
  assert (Hrow : forall a, In a A ->
             account_max_balance y (f2 a) = Returned (f3 (f2 a)) /\
             report_row y eur_of usd_of (f3 (f2 a)) =
             Returned (expected_row y eur usd a
                         (trs (acct_budget_id a) (acct_id a)))).
  { intros a Ha.
    destruct (account_row y eur_of usd_of eur usd a
                (trs (acct_budget_id a) (acct_id a)) Hr
                (fun r => Hfloat a r Ha))
      as [a' [H1 H2]].
    fold (f2 a) in H1. unfold f3. rewrite H1. auto. }
  unfold add_transactions.
  rewrite (for_each_update_map _ f2).
  2:{ intros a Ha. unfold get_transactions. rewrite (Htx a Ha).
      cbn [handle_exception]. rewrite io_bind_ret. cbn [iter].
      rewrite io_bind_ret. reflexivity. }
  rewrite io_bind_ret. unfold max_balances.
  rewrite (for_each_update_map _ f3).
  2:{ intros x Hx. apply in_map_iff in Hx. destruct Hx as [a [<- Ha]].
      destruct (Hrow a Ha) as [-> _]. reflexivity. }
  rewrite io_bind_ret. unfold print_report.
  rewrite (for_each_rows (report_row y eur_of usd_of) g).
  2:{ intros x Hx. apply in_map_iff in Hx. destruct Hx as [x0 [<- Hx0]].
      apply in_map_iff in Hx0. destruct Hx0 as [a [<- Ha]].
      unfold g. destruct (Hrow a Ha) as [_ ->]. reflexivity. }
  rewrite io_bind_ret. cbn [app]. rewrite !map_map.
  do 3 f_equal. apply map_ext_in. intros a Ha.
  unfold g. destruct (Hrow a Ha) as [_ ->]. reflexivity.
Qed.

Lemma report_when_every_request_is_answered_witness :
  MINYEAR <= 2024 <= MAXYEAR /\
  main 2024 one_budget savings_only transactions_ok
    (fun _ => FloatOk float_zero) (fun x => FloatOk x) =
  ([PrintTable
      (map (fun a => expected_row 2024 (fun _ => float_zero) (fun x => x) a
                       [tx 2024 3 1 (-300)])
           (fetched_accounts [mk_budget "b2"]
              (fun _ => [mk_ynab_account "a2" "Savings" 500])))],
   Returned tt).
Proof.
  split; [unfold MINYEAR, MAXYEAR; lia |].
  apply (report_when_every_request_is_answered 2024 [mk_budget "b2"]
           savings_only transactions_ok
           (fun _ => FloatOk float_zero) (fun x => FloatOk x)
           (fun _ => [mk_ynab_account "a2" "Savings" 500])
           (fun _ _ => [tx 2024 3 1 (-300)])
           (fun _ => float_zero) (fun x => x)).
  - unfold MINYEAR, MAXYEAR; lia.
  - reflexivity.
  - reflexivity.
  - intros a r _ _. split; reflexivity.
Defined.

(** ** A run in which a request fails *)

(** When the request for the budgets fails, the script prints the message
    and stops with [TypeError], whatever the other requests would answer. *)
Theorem failed_budgets_request_aborts (y : Z)
    (get_acc : string -> outcome (list ynab_account))
    (get_tx : string -> string -> outcome (list transaction))
    (eur_of : Z -> float_result) (usd_of : spec_float -> float_result) :
  main y (Raised ApiException) get_acc get_tx eur_of usd_of =
  ([Print api_exception_message], Raised TypeError).
Proof. reflexivity. Qed.

Lemma budgets_loop_aborts (bs : list ynab_budget)
    (get_acc : string -> outcome (list ynab_account)) :
  (exists b, In b bs /\ get_acc (budget_id_of b) = Raised ApiException) ->
  (forall b, In b bs ->
             get_acc (budget_id_of b) = Raised ApiException \/
             exists l, get_acc (budget_id_of b) = Returned l) ->
  forall acc : list account,
  for_each
    (fun _budget accounts =>
       _accounts <~ get_accounts get_acc (budget_id_of _budget) ;;
       ynab_accounts <~ iter _accounts ;;
       for_each
         (fun _account accounts =>
            io_ret (accounts ++ [to_account _account (budget_id_of _budget)]))
         ynab_accounts accounts)
    bs acc = aborted.
Proof.
  induction bs as [| b bs IH]; intros [b0 [Hin Hfail]] Hall acc.
  - destruct Hin.
  - cbn [for_each]. unfold get_accounts at 1.
    destruct (Hall b (or_introl eq_refl)) as [Hb | [l Hb]]; rewrite Hb.
    + reflexivity.
    + cbn [handle_exception]. rewrite io_bind_ret. cbn [iter].
      rewrite io_bind_ret. cbv beta.
      rewrite (for_each_append (fun a => to_account a (budget_id_of b))).
      rewrite io_bind_ret. cbv beta. apply IH.
      * destruct Hin as [<- | Hin]; [congruence |]. exists b0. auto.
      * intros b' Hb'. apply Hall. now right.
Qed.

(** When the budgets are returned and the request for the accounts of
    some budget fails, at whatever position, the script prints the message
    once and stops with [TypeError]: no table is printed, also not for the
    budgets whose accounts were returned before. *)
Theorem failed_accounts_request_anywhere_aborts (y : Z)
    (bs : list ynab_budget)
    (get_acc : string -> outcome (list ynab_account))
    (get_tx : string -> string -> outcome (list transaction))
    (eur_of : Z -> float_result) (usd_of : spec_float -> float_result) :
  (exists b, In b bs /\ get_acc (budget_id_of b) = Raised ApiException) ->
  (forall b, In b bs ->
             get_acc (budget_id_of b) = Raised ApiException \/
             exists l, get_acc (budget_id_of b) = Returned l) ->
  main y (Returned bs) get_acc get_tx eur_of usd_of =
  ([Print api_exception_message], Raised TypeError).
Proof.
  intros Hex Hall. unfold main, build_accounts, get_budgets.
  cbn [handle_exception]. rewrite io_bind_ret. cbn [iter].
  rewrite io_bind_ret. cbv beta.
  rewrite (budgets_loop_aborts bs get_acc Hex Hall). reflexivity.
Qed.

Lemma failed_accounts_request_anywhere_aborts_witness :
  main 2024 (Returned [mk_budget "b2"; mk_budget "b1"])
    accounts_failing_for_b1 transactions_ok
    (fun _ => FloatOk float_zero) (fun x => FloatOk x) =
  ([Print api_exception_message], Raised TypeError).
Proof.
  apply (failed_accounts_request_anywhere_aborts 2024
           [mk_budget "b2"; mk_budget "b1"]
           accounts_failing_for_b1 transactions_ok
           (fun _ => FloatOk float_zero) (fun x => FloatOk x)).
  - exists (mk_budget "b1"). split; [right; left; reflexivity | reflexivity].
  - intros b [<- | [<- | []]].
    + right. eexists. reflexivity.
    + left. reflexivity.
Defined.

Lemma accounts_loop_aborts
    (get_tx : string -> string -> outcome (list transaction))
    (accounts : list account) :
  (exists a, In a accounts /\
             get_tx (acct_budget_id a) (acct_id a) = Raised ApiException) ->
  (forall a, In a accounts ->
             get_tx (acct_budget_id a) (acct_id a) = Raised ApiException \/
             exists l, get_tx (acct_budget_id a) (acct_id a) = Returned l) ->
  add_transactions get_tx accounts = aborted.
Proof.
  unfold add_transactions.
  induction accounts as [| a accounts IH]; intros [a0 [Hin Hfail]] Hall.
  - destruct Hin.
  - cbn [for_each_update]. unfold get_transactions at 1.
    destruct (Hall a (or_introl eq_refl)) as [Ha | [l Ha]]; rewrite Ha.
    + reflexivity.
    + cbn [handle_exception]. rewrite io_bind_ret. cbn [iter].
      rewrite !io_bind_ret. rewrite IH; [reflexivity | |].
      * destruct Hin as [<- | Hin]; [congruence |]. exists a0. auto.
      * intros a' Ha'. apply Hall. now right.
Qed.

(** When the budgets and all accounts are returned and the request for
    the transactions of some account fails, at whatever position, the
    script prints the message once and stops with [TypeError]: no account
    is reported. *)
Theorem failed_transactions_request_anywhere_aborts (y : Z)
    (bs : list ynab_budget)
    (get_acc : string -> outcome (list ynab_account))
    (get_tx : string -> string -> outcome (list transaction))
    (eur_of : Z -> float_result) (usd_of : spec_float -> float_result)
    (accs : string -> list ynab_account) :
  (forall b, In b bs ->
             get_acc (budget_id_of b) = Returned (accs (budget_id_of b))) ->
  (exists a, In a (fetched_accounts bs accs) /\
             get_tx (acct_budget_id a) (acct_id a) = Raised ApiException) ->
  (forall a, In a (fetched_accounts bs accs) ->
             get_tx (acct_budget_id a) (acct_id a) = Raised ApiException \/
             exists l, get_tx (acct_budget_id a) (acct_id a) = Returned l) ->
  main y (Returned bs) get_acc get_tx eur_of usd_of =
  ([Print api_exception_message], Raised TypeError).
Proof.
  intros Hacc Hex Hall. unfold main.
  rewrite (build_accounts_returns bs get_acc accs Hacc), io_bind_ret.
  rewrite (accounts_loop_aborts get_tx _ Hex Hall). reflexivity.
Qed.

Lemma failed_transactions_request_anywhere_aborts_witness :
  main 2024 (Returned [mk_budget "b2"])
    (fun _ => Returned [mk_ynab_account "a2" "Savings" 500;
                        mk_ynab_account "a1" "Checking" 1000])
    transactions_failing_for_a1
    (fun _ => FloatOk float_zero) (fun x => FloatOk x) =
  ([Print api_exception_message], Raised TypeError).
Proof.
  apply (failed_transactions_request_anywhere_aborts 2024
           [mk_budget "b2"]
           (fun _ => Returned [mk_ynab_account "a2" "Savings" 500;
                               mk_ynab_account "a1" "Checking" 1000])
           transactions_failing_for_a1
           (fun _ => FloatOk float_zero) (fun x => FloatOk x)
           (fun _ => [mk_ynab_account "a2" "Savings" 500;
                      mk_ynab_account "a1" "Checking" 1000])).
  - reflexivity.
  - exists (to_account (mk_ynab_account "a1" "Checking" 1000) "b2").
    split; [right; left; reflexivity | reflexivity].
  - intros a [<- | [<- | []]].
    + right. eexists. reflexivity.
    + left. reflexivity.
Defined.

(** ** The stored record over the scan *)

Lemma loop_body_keeps_record (y : Z) (txs : list transaction) (idx : nat)
    (t : transaction) (st st' : scan_state) (b : MaxBalanceResult) :
  loop_body y txs idx t st = Returned st' ->
  max_balance st = Some b ->
  exists b', max_balance st' = Some b' /\ balance b <= balance b'.
Proof.
  intros Hbody Hb.
  destruct (loop_body_returned _ _ _ _ _ _ Hbody)
    as [_ [[_ Hsame] | [Hy [b0 [Hseed Hcmp]]]]].
  - exists b. rewrite Hsame. split; [exact Hb | lia].
  - destruct (seed_in_year _ _ _ _ Hy Hseed) as [b1 [E Hfrom]].
    injection E as <-.
    assert (b0 = b) as -> by (destruct Hfrom as [H | [H _]]; congruence).
    destruct Hcmp as [[_ Hkeep] | [Hlt [s [_ Hnew]]]].
    + exists b. split; [exact Hkeep | lia].
    + eexists. split; [exact Hnew |]. simpl. lia.
Qed.

(** Once a record is stored, the rest of the loop never sets
    [max_balance] back to [None] and never lowers its balance, whatever
    the order of the transactions. *)
Theorem stored_balance_never_decreases (y : Z) (txs rest : list transaction)
    (k : nat) (st st' : scan_state) (b : MaxBalanceResult) :
  scan_from y txs k rest st = Returned st' ->
  max_balance st = Some b ->
  exists b', max_balance st' = Some b' /\ balance b <= balance b'.
Proof.
  revert k st b. induction rest as [| t rest IH]; intros k st b H Hb;
    simpl in H.
  - injection H as <-. exists b. split; [exact Hb | lia].
  - destruct (loop_body y txs k t st) as [st1 | e] eqn:Hbody; simpl in H;
      [| discriminate].
    destruct (loop_body_keeps_record _ _ _ _ _ _ _ Hbody Hb) as [b1 [Hb1 Hle]].
    destruct (IH _ _ _ H Hb1) as [b' [Hb' Hle']].
    exists b'. split; [exact Hb' | lia].
Qed.

Lemma stored_balance_never_decreases_witness :
  exists b',
    max_balance
      (mk_scan 700 (Some (mk_max_balance 800 (mkdate 2024 2 1) (mkdate 2024 3 1))))
    = Some b' /\
    balance (mk_max_balance 500 (mkdate 2024 3 1) (mkdate 2024 12 31))
      <= balance b'.
Proof.
  exact (stored_balance_never_decreases 2024
           [tx 2024 4 1 0; tx 2024 3 1 (-300); tx 2024 2 1 100]
           [tx 2024 3 1 (-300); tx 2024 2 1 100] 1
           (mk_scan 500
              (Some (mk_max_balance 500 (mkdate 2024 3 1) (mkdate 2024 12 31))))
           (mk_scan 700
              (Some (mk_max_balance 800 (mkdate 2024 2 1) (mkdate 2024 3 1))))
           (mk_max_balance 500 (mkdate 2024 3 1) (mkdate 2024 12 31))
           eq_refl eq_refl).
Defined.


(** ** The sort is stable *)

Lemma date_eqb_ltb (d a b : pydate) :
  date_eqb d b = true -> date_ltb a b = true -> date_eqb d a = false.
Proof.
  unfold date_eqb. rewrite !andb_true_iff, !Z.eqb_eq.
  intros [[Hy Hm] Hd] Hlt. apply date_ltb_lt in Hlt. unfold date_lt in Hlt.
  apply not_true_iff_false. rewrite !andb_true_iff, !Z.eqb_eq.
  intros [[Hy' Hm'] Hd']. lia.
Qed.

Lemma dated_insert_desc (d : pydate) (t : transaction) (l : list transaction) :
  dated d (insert_desc t l) = dated d (t :: l).
Proof.
  unfold dated. induction l as [| u l IH]; simpl.
  - reflexivity.
  - destruct (date_ltb (date t) (date u)) eqn:Hlt; [| reflexivity].
    simpl. rewrite IH. simpl.
    destruct (date_eqb d (date u)) eqn:Hu; [| reflexivity].
    rewrite (date_eqb_ltb d (date t) (date u) Hu Hlt). reflexivity.
Qed.

(** The sort is stable: for every date, the transactions of that date
    stand in the sorted list in the order in which they stood in the
    list that was sorted, whatever that list is. *)
Theorem sorted_by_date_reverse_stable (l : list transaction) (d : pydate) :
  dated d (sorted_by_date_reverse l) = dated d l.
Proof.
  induction l as [| t l IH]; simpl.
  - reflexivity.
  - rewrite dated_insert_desc. unfold dated in *. simpl. now rewrite IH.
Qed.


(** ** Lines 137-164 on the heap *)

Lemma heap_update_length (a : addr) (o : pyobj) (h : heap) :
  List.length (heap_update a o h) = List.length h.
Proof.
  revert a. induction h as [| x h IH]; intros [| a]; simpl; auto.
Qed.

Lemma nth_error_heap_update_eq (a : addr) (o : pyobj) (h : heap) :
  (a < List.length h)%nat -> nth_error (heap_update a o h) a = Some o.
Proof.
  revert a. induction h as [| x h IH]; intros [| a] H; simpl in *;
    try lia; auto.
  apply IH. lia.
Qed.

Lemma nth_error_heap_update_neq (a a' : addr) (o : pyobj) (h : heap) :
  a <> a' -> nth_error (heap_update a o h) a' = nth_error h a'.
Proof.
  revert a a'. induction h as [| x h IH]; intros [| a] [| a'] H; simpl;
    try reflexivity; try congruence.
  apply IH. congruence.
Qed.

(** An object of the heap is still there when the heap has grown. *)
Lemma nth_error_grown (h extra : heap) (a : addr) (o : pyobj) :
  nth_error h a = Some o -> nth_error (h ++ extra) a = Some o.
Proof.
  intros H. rewrite nth_error_app1; [exact H |].
  apply nth_error_Some. congruence.
Qed.

Lemma read_key_transaction {A} (h : heap) (a : addr) (t : transaction)
    (key : pyobj -> option A) (v : A) :
  nth_error h a = Some (OTransaction t) ->
  key (OTransaction t) = Some v ->
  read_key h a key = Returned v.
Proof. intros H Hk. unfold read_key. now rewrite H, Hk. Qed.

Section HeapSimulation.

Variable y : Z.
Variable acct : addr.
Variable h : heap.
Variable txs : list transaction.
Variable a : heap_account.
Variable l : addr.
Variable refs : list addr.
Hypothesis Hacct : nth_error h acct = Some (OAccount a).
Hypothesis Hlist : ha_transactions a = Some l.
Hypothesis Hrefs : nth_error h l = Some (OList refs).
Hypothesis Htxs :
  map (nth_error h) refs = map (fun t => Some (OTransaction t)) txs.

Lemma refs_at (i : nat) :
  match nth_error txs i with
  | Some t => exists tr, nth_error refs i = Some tr /\
                         nth_error h tr = Some (OTransaction t)
  | None => nth_error refs i = None
  end.
Proof.
  pose proof (f_equal (fun m => nth_error m i) Htxs) as H. simpl in H.
  rewrite !nth_error_map in H. unfold addr in *. revert H.
  destruct (nth_error txs i) as [t |], (nth_error refs i) as [tr |];
    simpl; intros H; try discriminate H; [| reflexivity].
  exists tr. split; [reflexivity | congruence].
Qed.

Lemma read_account_transactions (extra : heap) :
  read_key (h ++ extra) acct key_transactions = Returned l.
Proof.
  unfold read_key. rewrite (nth_error_grown _ extra _ _ Hacct).
  cbn [key_transactions]. now rewrite Hlist.
Qed.

Lemma read_transaction_list (extra : heap) :
  read_list (h ++ extra) l = Returned refs.
Proof.
  unfold read_list. now rewrite (nth_error_grown _ extra _ _ Hrefs).
Qed.

Lemma heap_next_older_date_sim (extra : heap) (idx : nat) :
  heap_next_older_date y acct (h ++ extra) idx = next_older_date y txs idx.
Proof.
  rewrite next_older_date_eq. pose proof (refs_at (S idx)) as H.
  unfold heap_next_older_date.
  rewrite read_account_transactions. cbn [obind].
  rewrite read_transaction_list. cbn [obind].
  rewrite list_getitem_next.
  destruct (nth_error txs (S idx)) as [u |].
  - destruct H as [tr [-> Htr]]. cbn [obind].
    rewrite (read_key_transaction _ _ u key_date (date u));
      [reflexivity | now apply nth_error_grown | reflexivity].
  - rewrite H. reflexivity.
Qed.

(** One iteration on the heap does what one iteration of the scan does. *)
Lemma heap_body_sim (idx : nat) (t : transaction) (tr : addr)
    (st : heap_state) (ps : scan_state) :
  nth_error h tr = Some (OTransaction t) ->
  heap_sim h st ps ->
  match loop_body y txs idx t ps with
  | Raised e => heap_body y acct idx tr st = Raised e
  | Returned ps' =>
      exists st', heap_body y acct idx tr st = Returned st' /\
                  heap_sim h st' ps'
  end.
Proof.
  intros Htr [[extra Hheap] [Hcur Hmax]].
  destruct st as [hh cur mx], ps as [pc pm]; simpl in *. subst hh cur.
  assert (Hd : forall extra', read_key (h ++ extra') tr key_date
                              = Returned (date t)).
  { intros extra'. apply (read_key_transaction _ _ t); [| reflexivity].
    now apply nth_error_grown. }
  assert (Ha : forall extra', read_key (h ++ extra') tr key_amount
                              = Returned (amount t)).
  { intros extra'. apply (read_key_transaction _ _ t); [| reflexivity].
    now apply nth_error_grown. }
  (* the seeding step *)
  assert (Hseed :
    match seed y t (mk_scan pc pm) with
    | Raised e =>
        heap_seed y tr (mk_heap_state (h ++ extra) pc mx) = Raised e
    | Returned mb =>
        exists extra1 m1,
          heap_seed y tr (mk_heap_state (h ++ extra) pc mx)
          = Returned (h ++ extra1, m1) /\
          match m1, mb with
          | None, None => True
          | Some m, Some r =>
              nth_error (h ++ extra1) m = Some (OMaxBalance r) /\
              (List.length h <= m)%nat
          | _, _ => False
          end
    end).
  { unfold seed, heap_seed, in_year; simpl. rewrite Hd. simpl.
    destruct (year (date t) =? y); simpl.
    - destruct mx as [m |], pm as [r |]; simpl; try contradiction.
      + exists extra, (Some m). auto.
      + rewrite ?Hd. simpl.
        destruct (datetime_date y 12 31) as [e | e]; simpl; [| reflexivity].
        exists (extra ++ [OMaxBalance (mk_max_balance pc (date t) e)]),
               (Some (List.length (h ++ extra))).
        rewrite app_assoc. split; [reflexivity |]. split.
        * rewrite nth_error_app2 by lia. now rewrite Nat.sub_diag.
        * rewrite length_app. lia.
    - exists extra, mx. split; [reflexivity |].
      destruct mx, pm; auto. }
  unfold loop_body, heap_body.
  destruct (seed y t (mk_scan pc pm)) as [mb | e]; simpl;
    [| now rewrite Hseed].
  destruct Hseed as [extra1 [m1 [-> Hm1]]]. simpl.
  rewrite Ha, Hd. simpl. unfold in_year.
  destruct (year (date t) =? y); simpl.
  - destruct m1 as [m |], mb as [r |]; simpl; try contradiction;
      [| reflexivity].
    destruct Hm1 as [Hm Hfresh]. unfold read_key. rewrite Hm. simpl.
    destruct (balance r <? pc - amount t); simpl.
    + rewrite heap_next_older_date_sim.
      destruct (next_older_date y txs idx) as [s | e]; simpl; [| reflexivity].
      fold (read_key (h ++ extra1) tr key_date). rewrite ?Hd. simpl.
      eexists. split; [reflexivity |]. split; [| split]; simpl.
      * exists (extra1 ++ [OMaxBalance
                             (mk_max_balance (pc - amount t) s (date t))]).
        now rewrite app_assoc.
      * reflexivity.
      * split.
        -- rewrite nth_error_app2 by lia. now rewrite Nat.sub_diag.
        -- rewrite length_app. lia.
    + eexists. split; [reflexivity |]. split; [| split]; simpl; eauto.
  - eexists. split; [reflexivity |]. split; [| split]; simpl; eauto.
Qed.

(** The loop on the heap ends within its fuel and does what the scan
    does. *)
Lemma heap_loop_sim (rest : list transaction) :
  forall (idx fuel : nat) (st : heap_state) (ps : scan_state),
  (forall i, nth_error rest i = nth_error txs (idx + i)) ->
  heap_sim h st ps ->
  (List.length rest < fuel)%nat ->
  match scan_from y txs idx rest ps with
  | Raised e => heap_loop y acct l fuel idx st = Some (Raised e)
  | Returned ps' =>
      exists st', heap_loop y acct l fuel idx st = Some (Returned st') /\
                  heap_sim h st' ps'
  end.
Proof.
  induction rest as [| t rest IH]; intros idx fuel st ps Hpos Hsim Hfuel;
    (destruct fuel as [| fuel]; [simpl in Hfuel; lia |]);
    pose proof Hsim as [[extra Hheap] _];
    simpl; unfold read_list; rewrite Hheap;
    rewrite (nth_error_grown _ extra _ _ Hrefs);
    pose proof (refs_at idx) as Hidx;
    specialize (Hpos 0%nat) as Hhead; rewrite Nat.add_0_r in Hhead;
    simpl in Hhead; rewrite <- Hhead in Hidx.
  - rewrite Hidx. eauto.
  - destruct Hidx as [tr [-> Htr]].
    pose proof (heap_body_sim idx t tr st ps Htr Hsim) as Hbody.
    destruct (loop_body y txs idx t ps) as [ps1 | e]; simpl.
    + destruct Hbody as [st1 [-> Hsim1]].
      apply IH; [| exact Hsim1 | simpl in Hfuel; lia].
      intros i. specialize (Hpos (S i)). simpl in Hpos.
      now rewrite Nat.add_succ_r in Hpos.
    + now rewrite Hbody.
Qed.

End HeapSimulation.

(** Lines 137-164 run on a heap that holds the account: they end within
    the fuel, store what [computeMaxBalance] returns (or raise what it
    raises), leave every other object of the heap as it was, and leave
    the account with the same cleared balance and the same transactions. *)
Lemma heap_scan_refines (y : Z) (h : heap) (acct : addr) (cb : Z)
    (txs : list transaction) :
  represents h acct cb txs ->
  exists res,
    heap_account_max_balance y acct h (S (List.length txs)) = Some res /\
    outcome_map (fun h' => stored_max_balance h' acct) res =
    outcome_map Some (computeMaxBalance cb txs y) /\
    (forall h', res = Returned h' ->
       (forall a0, (a0 < List.length h)%nat -> a0 <> acct ->
                   nth_error h' a0 = nth_error h a0) /\
       represents h' acct cb txs).
Proof.
  intros (a & l & refs & Hacct & Hcb & Hl & Hrefs & Htxs).
  assert (Hlt : (acct < List.length h)%nat)
    by (apply nth_error_Some; congruence).
  unfold heap_account_max_balance, read_key. rewrite Hacct.
  cbn [key_cleared_balance key_transactions]. rewrite Hl, Hcb.
  assert (Hinit : heap_sim h (mk_heap_state h cb None) (mk_scan cb None)).
  { split; [exists []; simpl; now rewrite app_nil_r |].
    split; [reflexivity | exact I]. }
  pose proof (heap_loop_sim y acct h txs a l refs Hacct Hl Hrefs Htxs
                txs 0%nat (S (List.length txs))
                (mk_heap_state h cb None) (mk_scan cb None)
                (fun i => eq_refl) Hinit (Nat.lt_succ_diag_r _)) as Hloop.
  unfold computeMaxBalance.
  destruct (scan_from y txs 0 txs (mk_scan cb None)) as [ps' | e].
  - destruct Hloop as [st' [-> [[extra Hh] [Hc Hm]]]].
    unfold store_max_balance. rewrite Hh.
    rewrite (nth_error_grown _ extra _ _ Hacct).
    eexists. split; [reflexivity |].
    assert (Hlt' : (acct < List.length (h ++ extra))%nat)
      by (rewrite length_app; lia).
    split.
    + simpl. unfold stored_max_balance.
      rewrite (nth_error_heap_update_eq _ _ _ Hlt'). cbn [ha_max_balance].
      destruct (hs_max st') as [m |], (max_balance ps') as [r |];
        try contradiction; [| reflexivity].
      destruct Hm as [Hm Hfresh]. rewrite Hh in Hm.
      rewrite nth_error_heap_update_neq by lia. now rewrite Hm.
    + intros h' [= <-]. split.
      * intros a0 Ha0 Hne. rewrite nth_error_heap_update_neq by congruence.
        now apply nth_error_app1.
      * eexists; exists l, refs.
        split; [apply (nth_error_heap_update_eq _ _ _ Hlt') |].
        split; [exact Hcb |]. split; [exact Hl |].
        assert (Hkeep : forall a0 o, nth_error h a0 = Some o ->
                  (forall x, o <> OAccount x) ->
                  nth_error (heap_update acct
                    (OAccount (mk_heap_account (ha_id a) (ha_name a)
                                 (ha_cleared_balance a) (ha_budget_id a)
                                 (ha_transactions a) (Some (hs_max st'))))
                    (h ++ extra)) a0 = Some o).
        { intros a0 o Ho Hkind.
          rewrite nth_error_heap_update_neq.
          - now apply nth_error_grown.
          - intros <-. rewrite Hacct in Ho. injection Ho as <-.
            now apply (Hkind a). }
        split; [apply Hkeep; [exact Hrefs | discriminate] |].
        rewrite <- Htxs. apply map_ext_in. intros tr Htr.
        assert (Hin : In (nth_error h tr)
                        (map (fun t => Some (OTransaction t)) txs))
          by (rewrite <- Htxs; now apply in_map).
        apply in_map_iff in Hin. destruct Hin as [t [Ht _]].
        rewrite <- Ht. apply Hkeep; [now symmetry | discriminate].
  - rewrite Hloop. eexists. split; [reflexivity |].
    split; [reflexivity | discriminate].
Qed.


